(** * HealthSync: wellness scores, energy level, habit streaks and rewards

    A shallow embedding of the business-logic helpers of [main.py]
    ([update_energy_level], [update_habit_streak],
    [award_for_habit_completion]), of the endpoints that call them
    ([POST /daily], [GET /daily/{user_id}], [POST /habits/complete]) and of
    the progress figure of the dashboard, over a small relational store
    that follows the tables of [database.py].

    Conventions of the embedding.
    - Calendar dates are day numbers in [Z]; [d - timedelta(days=i)] is
      [d - i].
    - Numbers are exact rationals ([Q], compared with [==]); SQL
      [INTEGER] columns are [Z].
    - The development has two layers.  The first gives the arithmetic of
      the helpers and the transitions of the store over exact numbers: the
      formulas of the scores, the window and the mean of the energy level,
      the walk of the streak, the keys of the tables.  The second, the
      module [Runtime], follows the same source lines with what the Python
      runtime and PostgreSQL add to them: the kind of every number ([int],
      [float], [Decimal]) and the [TypeError] of [float + Decimal], the
      rounding of a value written to a [DECIMAL(5,2)] column, the range of
      an [INTEGER] column, the [CHECK] on [mood], the parameter count of
      the [UPDATE] of [POST /daily], and the rollback of a failed
      request.  Statements about what a request stores or answers are made
      over [Runtime].  Binary rounding of a [float] before it reaches a
      column is left open (the map [float_to_numeric]).
    - The reference from [daily_data] to [users] is modelled where an
      endpoint inserts without checking the user first.
    - A nullable column read through [COALESCE] is an [option]. *)

From Stdlib Require Import ZArith QArith Qminmax List String Bool Lia Lqa.
From Stdlib Require Import Sorting.Sorted Sorting.Permutation.
From Stdlib Require Import Qround.
Import ListNotations.

Local Open Scope Z_scope.
Local Open Scope Q_scope.
Local Open Scope string_scope.

(** ** Tables *)

(** Row of [users]; only the columns the helpers touch. *)
Record user_row : Type := mk_user {
  u_id : Z;
  sync_coins : Z;
  energy_level : Q
}.

(** Row of [daily_data].  The fact columns are nullable and are read
    through [COALESCE]; the score columns default to [0.0] and are only
    ever written with computed numbers. *)
Record daily_row : Type := mk_daily {
  dd_user_id : Z;
  dd_date : Z;
  dd_steps : option Z;
  dd_water_ml : option Z;
  dd_sleep_hours : option Q;
  dd_breakfast : option bool;
  dd_lunch : option bool;
  dd_dinner : option bool;
  dd_mood : option string;
  activity_score : Q;
  nutrition_score : Q;
  recovery_score : Q;
  mental_score : Q;
  dd_overall_balance : Q
}.

(** Row of [user_habits]. *)
Record habit_row : Type := mk_habit {
  h_id : Z;
  current_streak : Z;
  longest_streak : Z
}.

(** Row of [habit_completions]. *)
Record completion_row : Type := mk_completion {
  c_habit_id : Z;
  c_date : Z;
  is_completed : bool
}.

Record database : Type := mk_db {
  users : list user_row;
  daily_data : list daily_row;
  user_habits : list habit_row;
  habit_completions : list completion_row
}.

(** ** The fetched day: [data = cursor.fetchone()] *)

(** The dictionary returned by the first query of [update_energy_level],
    after its [COALESCE] defaults. *)
Record data : Type := mk_data {
  steps : Z;
  water : Z;
  sleep : Q;
  breakfast : bool;
  lunch : bool;
  dinner : bool;
  mood : string
}.

Definition COALESCE {A : Type} (x : option A) (dflt : A) : A :=
  match x with
  | Some v => v
  | None => dflt
  end.

Definition select_data (r : daily_row) : data :=
  {| steps := COALESCE (dd_steps r) 0%Z;
     water := COALESCE (dd_water_ml r) 0%Z;
     sleep := COALESCE (dd_sleep_hours r) 0;
     breakfast := COALESCE (dd_breakfast r) false;
     lunch := COALESCE (dd_lunch r) false;
     dinner := COALESCE (dd_dinner r) false;
     mood := COALESCE (dd_mood r) "neutral" |}.

Definition fetchone {A : Type} (rows : list A) : option A :=
  match rows with
  | [] => None
  | r :: _ => Some r
  end.

Definition is_day (user_id date_str : Z) (r : daily_row) : bool :=
  (dd_user_id r =? user_id)%Z && (dd_date r =? date_str)%Z.

Definition fetch_data (user_id date_str : Z) (db : database) : option data :=
  fetchone (map select_data (filter (is_day user_id date_str) (daily_data db))).

(** ** The score formula *)

(** Python's [x > 0] on a rational. *)
Definition Qpositive (x : Q) : bool := negb (Qle_bool x 0).

Definition steps_score (d : data) : Q :=
  if (0 <? steps d)%Z then Qmin (inject_Z (steps d) / 10000 * 25) 25 else 0.

Definition water_score (d : data) : Q :=
  if (0 <? water d)%Z then Qmin (inject_Z (water d) / 2000 * 25) 25 else 0.

Definition sleep_score (d : data) : Q :=
  if Qpositive (sleep d) then Qmin (sleep d / 8 * 25) 25 else 0.

(** [sum([breakfast, lunch, dinner])]: a Python [bool] counts as 0 or 1. *)
Definition meals_count (d : data) : Z :=
  (Z.b2z (breakfast d) + Z.b2z (lunch d) + Z.b2z (dinner d))%Z.

Definition meals_score (d : data) : Q :=
  if (0 <? meals_count d)%Z then (inject_Z (meals_count d) / 3) * 25 else 0.

Definition mood_scores : list (string * Q) :=
  [ ("excellent", 25); ("good", 20); ("neutral", 15); ("bad", 5);
    ("terrible", 0) ].

(** [dict.get(key, default)]. *)
Fixpoint get (dict : list (string * Q)) (key : string) (dflt : Q) : Q :=
  match dict with
  | [] => dflt
  | (k, v) :: rest => if String.eqb k key then v else get rest key dflt
  end.

Definition mood_score (d : data) : Q := get mood_scores (mood d) 15.

Definition overall_balance (d : data) : Q :=
  steps_score d + water_score d + sleep_score d + meals_score d + mood_score d.

(** ** [update_energy_level] *)

(** The writes of the helper over exact numbers: which rows and columns
    are written, from which rows the mean is taken.  The exception of
    line 775 and the rounding of the columns are in
    [Runtime.update_energy_level]. *)

(** The [UPDATE daily_data SET activity_score = ..., ...] of the helper:
    the parameters are bound in the order
    [(steps_score, meals_score, sleep_score, mood_score, overall_balance)]. *)
Definition set_scores (d : data) (r : daily_row) : daily_row :=
  {| dd_user_id := dd_user_id r;
     dd_date := dd_date r;
     dd_steps := dd_steps r;
     dd_water_ml := dd_water_ml r;
     dd_sleep_hours := dd_sleep_hours r;
     dd_breakfast := dd_breakfast r;
     dd_lunch := dd_lunch r;
     dd_dinner := dd_dinner r;
     dd_mood := dd_mood r;
     activity_score := steps_score d;
     nutrition_score := meals_score d;
     recovery_score := sleep_score d;
     mental_score := mood_score d;
     dd_overall_balance := overall_balance d |}.

Definition store_scores (user_id date_str : Z) (d : data)
    (rows : list daily_row) : list daily_row :=
  map (fun r => if is_day user_id date_str r then set_scores d r else r) rows.

(** [WHERE user_id = %s AND date >= %s::date - INTERVAL '7 days']. *)
Definition in_window (user_id date_str : Z) (r : daily_row) : bool :=
  (dd_user_id r =? user_id)%Z && (date_str - 7 <=? dd_date r)%Z.

Definition Qsum (l : list Q) : Q := fold_right Qplus 0 l.

(** SQL [AVG]: [NULL] over no rows. *)
Definition AVG (l : list Q) : option Q :=
  match l with
  | [] => None
  | _ :: _ => Some (Qsum l / inject_Z (Z.of_nat (List.length l)))
  end.

Definition window_balances (user_id date_str : Z)
    (rows : list daily_row) : list Q :=
  map dd_overall_balance (filter (in_window user_id date_str) rows).

Definition avg_energy (user_id date_str : Z) (rows : list daily_row) : option Q :=
  AVG (window_balances user_id date_str rows).

(** Truth value of a Python number: zero is false. *)
Definition truthy (q : Q) : bool := negb (Qeq_bool q 0).

(** [result['avg_energy'] if result and result['avg_energy'] else 50.0]. *)
Definition new_energy (avg : option Q) : Q :=
  match avg with
  | Some a => if truthy a then a else 50
  | None => 50
  end.

Definition set_energy_level (user_id : Z) (e : Q)
    (rows : list user_row) : list user_row :=
  map (fun u =>
         if (u_id u =? user_id)%Z
         then {| u_id := u_id u; sync_coins := sync_coins u; energy_level := e |}
         else u) rows.

Definition update_energy_level (user_id date_str : Z) (db : database) : database :=
  match fetch_data user_id date_str db with
  | None => db
  | Some d =>
      let rows := store_scores user_id date_str d (daily_data db) in
      let e := new_energy (avg_energy user_id date_str rows) in
      {| users := set_energy_level user_id e (users db);
         daily_data := rows;
         user_habits := user_habits db;
         habit_completions := habit_completions db |}
  end.

(** ** [update_habit_streak] *)

Fixpoint insert_desc (x : Z) (l : list Z) : list Z :=
  match l with
  | [] => [x]
  | y :: rest => if (y <=? x)%Z then x :: l else y :: insert_desc x rest
  end.

(** [ORDER BY date DESC]. *)
Definition order_by_desc (l : list Z) : list Z := fold_right insert_desc [] l.

Definition completed_for (habit_id : Z) (c : completion_row) : bool :=
  (c_habit_id c =? habit_id)%Z && is_completed c.

(** Every completed date of the habit, newest first. *)
Definition completed_dates (habit_id : Z) (db : database) : list Z :=
  order_by_desc (map c_date (filter (completed_for habit_id) (habit_completions db))).

(** The query of the helper, with its [LIMIT 7]. *)
Definition fetch_completions (habit_id : Z) (db : database) : list Z :=
  firstn 7 (completed_dates habit_id db).

(** The [for i, comp_date in enumerate(completions)] loop with its
    [break]; [i] and [current_streak] are the loop's two variables. *)
Fixpoint streak_loop (current_date i : Z) (completions : list Z)
    (current_streak : Z) : Z :=
  match completions with
  | [] => current_streak
  | comp_date :: rest =>
      let expected_date := (current_date - i)%Z in
      if (comp_date =? expected_date)%Z
      then streak_loop current_date (i + 1) rest (current_streak + 1)
      else current_streak
  end.

Definition compute_streak (current_date : Z) (completions : list Z) : Z :=
  streak_loop current_date 0 completions 0.

(** [SET current_streak = %s, longest_streak = GREATEST(longest_streak, %s)]. *)
Definition set_streak (cs : Z) (h : habit_row) : habit_row :=
  {| h_id := h_id h;
     current_streak := cs;
     longest_streak := Z.max (longest_streak h) cs |}.

Definition update_habit_streak (habit_id date_str : Z) (db : database) : database :=
  let completions := fetch_completions habit_id db in
  let cs := compute_streak date_str completions in
  {| users := users db;
     daily_data := daily_data db;
     user_habits :=
       map (fun h => if (h_id h =? habit_id)%Z then set_streak cs h else h)
           (user_habits db);
     habit_completions := habit_completions db |}.

(** ** [award_for_habit_completion] *)

(** The two [UPDATE]s over unbounded coins; the range of the [INTEGER]
    column is in [Runtime.award_for_habit_completion]. *)

Definition add_coins (u : user_row) : user_row :=
  {| u_id := u_id u; sync_coins := (sync_coins u + 2)%Z;
     energy_level := energy_level u |}.

(** [LEAST(energy_level + 3, 100)]. *)
Definition add_energy (u : user_row) : user_row :=
  {| u_id := u_id u; sync_coins := sync_coins u;
     energy_level := Qmin (energy_level u + 3) 100 |}.

Definition update_user (user_id : Z) (f : user_row -> user_row)
    (rows : list user_row) : list user_row :=
  map (fun u => if (u_id u =? user_id)%Z then f u else u) rows.

Definition award_for_habit_completion (user_id habit_id : Z)
    (db : database) : database :=
  {| users := update_user user_id add_energy
                (update_user user_id add_coins (users db));
     daily_data := daily_data db;
     user_habits := user_habits db;
     habit_completions := habit_completions db |}.

(** ** The [POST /daily] endpoint *)

(** The transition of the store that the handler is written to make: the
    row of the day is patched or inserted and the helper is run.  What the
    handler does when a statement fails, and that the [UPDATE] of an
    existing day always fails, is in [Runtime.update_daily_data]. *)

Record DailyDataCreate : Type := mk_request {
  req_user_id : Z;
  req_date : option Z;
  req_steps : option Z;
  req_water_ml : option Z;
  req_mood : option string;
  req_sleep_hours : option Q;
  req_breakfast : option bool;
  req_lunch : option bool;
  req_dinner : option bool
}.

(** What the endpoint answers: its message, or an [HTTPException] with a
    status code. *)
Inductive response : Type :=
  | Success
  | HTTPException (status_code : Z).

(** [if data.f is not None: update_fields.append("f = %s")]. *)
Definition patch {A : Type} (new : option A) (old : option A) : option A :=
  match new with
  | Some v => Some v
  | None => old
  end.

Definition update_fields (req : DailyDataCreate) (r : daily_row) : daily_row :=
  {| dd_user_id := dd_user_id r;
     dd_date := dd_date r;
     dd_steps := patch (req_steps req) (dd_steps r);
     dd_water_ml := patch (req_water_ml req) (dd_water_ml r);
     dd_sleep_hours := patch (req_sleep_hours req) (dd_sleep_hours r);
     dd_breakfast := patch (req_breakfast req) (dd_breakfast r);
     dd_lunch := patch (req_lunch req) (dd_lunch r);
     dd_dinner := patch (req_dinner req) (dd_dinner r);
     dd_mood := patch (req_mood req) (dd_mood r);
     activity_score := activity_score r;
     nutrition_score := nutrition_score r;
     recovery_score := recovery_score r;
     mental_score := mental_score r;
     dd_overall_balance := dd_overall_balance r |}.

(** The row of the [INSERT]: [data.steps or 0], [data.breakfast or False]
    and so on; mood and sleep go in as they are; the score columns take
    their default. *)
Definition new_row (req : DailyDataCreate) (today : Z) : daily_row :=
  {| dd_user_id := req_user_id req;
     dd_date := today;
     dd_steps := Some (COALESCE (req_steps req) 0%Z);
     dd_water_ml := Some (COALESCE (req_water_ml req) 0%Z);
     dd_sleep_hours := req_sleep_hours req;
     dd_breakfast := Some (COALESCE (req_breakfast req) false);
     dd_lunch := Some (COALESCE (req_lunch req) false);
     dd_dinner := Some (COALESCE (req_dinner req) false);
     dd_mood := req_mood req;
     activity_score := 0;
     nutrition_score := 0;
     recovery_score := 0;
     mental_score := 0;
     dd_overall_balance := 0 |}.

(** [UPDATE daily_data SET ... WHERE id = existing['id']]: [existing] is
    the first row of the day. *)
Fixpoint update_existing (user_id today : Z) (f : daily_row -> daily_row)
    (rows : list daily_row) : list daily_row :=
  match rows with
  | [] => []
  | r :: rest =>
      if is_day user_id today r then f r :: rest
      else r :: update_existing user_id today f rest
  end.

Definition update_daily_data (req : DailyDataCreate) (date_today : Z)
    (db : database) : response * database :=
  if existsb (fun u => (u_id u =? req_user_id req)%Z) (users db) then
    let today := COALESCE (req_date req) date_today in
    let rows :=
      match fetchone (filter (is_day (req_user_id req) today) (daily_data db)) with
      | Some _ =>
          update_existing (req_user_id req) today (update_fields req) (daily_data db)
      | None => (daily_data db ++ [new_row req today])%list
      end in
    let db1 := {| users := users db;
                  daily_data := rows;
                  user_habits := user_habits db;
                  habit_completions := habit_completions db |} in
    (Success, update_energy_level (req_user_id req) today db1)
  else (HTTPException 404, db).

(** ** The specification's reading, for comparison *)

(** The specification's window: the seven days ending at the written date. *)
Definition spec_in_window (user_id date_str : Z) (r : daily_row) : bool :=
  (dd_user_id r =? user_id)%Z
  && (date_str - 6 <=? dd_date r)%Z && (dd_date r <=? date_str)%Z.

(** The specification's energy level: the mean over its window, [50] only
    when the window has no record. *)
Definition spec_energy_level (user_id date_str : Z) (rows : list daily_row) : Q :=
  match AVG (map dd_overall_balance (filter (spec_in_window user_id date_str) rows)) with
  | Some a => a
  | None => 50
  end.

(** ** The [GET /daily/{user_id}] endpoint *)

(** What the endpoint answers: the row of the day, or an [HTTPException]. *)
Inductive daily_response : Type :=
  | DailyRow (r : daily_row)
  | DailyError (status_code : Z).

(** The row of [INSERT INTO daily_data (user_id, date) VALUES (%s, %s)]:
    every other column takes the default of its declaration in
    [database.py] (mood has none and stays [NULL]). *)
Definition default_row (user_id target_date : Z) : daily_row :=
  {| dd_user_id := user_id;
     dd_date := target_date;
     dd_steps := Some 0%Z;
     dd_water_ml := Some 0%Z;
     dd_sleep_hours := Some 0;
     dd_breakfast := Some false;
     dd_lunch := Some false;
     dd_dinner := Some false;
     dd_mood := None;
     activity_score := 0;
     nutrition_score := 0;
     recovery_score := 0;
     mental_score := 0;
     dd_overall_balance := 0 |}.

(** The endpoint has no check of the user: for an unknown user the
    [INSERT] violates [REFERENCES users(id)], the handler rolls back and
    answers 500. *)
Definition get_daily_data (user_id : Z) (date_str : option Z)
    (date_today : Z) (db : database) : daily_response * database :=
  let target_date := COALESCE date_str date_today in
  match fetchone (filter (is_day user_id target_date) (daily_data db)) with
  | Some r => (DailyRow r, db)
  | None =>
      if existsb (fun u => (u_id u =? user_id)%Z) (users db) then
        (DailyRow (default_row user_id target_date),
         {| users := users db;
            daily_data :=
              (daily_data db ++ [default_row user_id target_date])%list;
            user_habits := user_habits db;
            habit_completions := habit_completions db |})
      else (DailyError 500, db)
  end.

(** ** The [POST /habits/complete] endpoint *)

(** The columns [id] and [user_id] of [user_habits], which [habit_row]
    does not carry; the endpoint reads them and never writes them. *)
Record habit_owner : Type := mk_owner {
  o_habit_id : Z;
  o_user_id : Z
}.

(** The request body; [completed_value] goes to a column that the
    helpers never read and the model does not carry. *)
Record HabitCompletion : Type := mk_habit_completion {
  hc_user_id : Z;
  hc_habit_id : Z
}.

Definition is_completion (habit_id today : Z) (c : completion_row) : bool :=
  (c_habit_id c =? habit_id)%Z && (c_date c =? today)%Z.

Definition mark_completed (c : completion_row) : completion_row :=
  {| c_habit_id := c_habit_id c; c_date := c_date c; is_completed := true |}.

(** [UPDATE habit_completions SET is_completed = TRUE, ...
    WHERE id = existing['id']]: [existing] is the first row of the habit
    and the day. *)
Fixpoint update_existing_completion (habit_id today : Z)
    (rows : list completion_row) : list completion_row :=
  match rows with
  | [] => []
  | c :: rest =>
      if is_completion habit_id today c then mark_completed c :: rest
      else c :: update_existing_completion habit_id today rest
  end.

(** [SELECT * FROM user_habits WHERE id = %s AND user_id = %s]. *)
Definition habit_found (owners : list habit_owner) (user_id habit_id : Z)
    (db : database) : bool :=
  existsb (fun h => (h_id h =? habit_id)%Z) (user_habits db)
  && existsb (fun o => (o_habit_id o =? habit_id)%Z && (o_user_id o =? user_id)%Z)
       owners.

(** The insert-or-update of the day's completion row. *)
Definition record_completion (habit_id today : Z) (db : database) : database :=
  {| users := users db;
     daily_data := daily_data db;
     user_habits := user_habits db;
     habit_completions :=
       match fetchone (filter (is_completion habit_id today)
                         (habit_completions db)) with
       | Some _ =>
           update_existing_completion habit_id today (habit_completions db)
       | None =>
           (habit_completions db
            ++ [ {| c_habit_id := habit_id; c_date := today;
                    is_completed := true |} ])%list
       end |}.

Definition complete_habit (owners : list habit_owner)
    (completion : HabitCompletion) (date_today : Z) (db : database)
    : response * database :=
  if habit_found owners (hc_user_id completion) (hc_habit_id completion) db then
    let today := date_today in
    let db1 := record_completion (hc_habit_id completion) today db in
    let db2 := update_habit_streak (hc_habit_id completion) today db1 in
    (Success,
     award_for_habit_completion (hc_user_id completion)
       (hc_habit_id completion) db2)
  else (HTTPException 404, db).

(** ** The progress figure of [GET /dashboard/{user_id}] *)

(** [sum(1 for h in habits if h['is_completed'])] over the joined rows;
    the column is [NULL] for a habit with no completion row today. *)
Definition completed_habits (habits : list (option bool)) : Z :=
  Z.of_nat (List.length (filter (fun c => COALESCE c false) habits)).

Definition total_habits (habits : list (option bool)) : Z :=
  Z.of_nat (List.length habits).

(** [daily_progress], before the [round(daily_progress, 1)] of the answer. *)
Definition daily_progress (habits : list (option bool)) : Q :=
  if (0 <? total_habits habits)%Z
  then inject_Z (completed_habits habits) / inject_Z (total_habits habits) * 100
  else 0.

(** ** The endpoints as transitions of the store *)




(** ** The helpers as they run

    The definitions above give the arithmetic of the helpers over exact
    numbers.  The module below follows the same source lines with what the
    Python runtime and the store add to them: the kind of every number
    ([int], [float] or [Decimal]) and the [TypeError] of [float + Decimal],
    the rounding of a value written to a [DECIMAL(5,2)] column, the range
    of an [INTEGER] column, the [CHECK] on [mood], and the handlers'
    [except Exception: rollback; raise HTTPException(500)].  The value of
    a [float] is still an exact rational. *)

Module Runtime.

(** A Python number with its kind.  [COALESCE(steps, 0)] and
    [COALESCE(water_ml, 0)] are [INTEGER] and arrive as [int];
    [COALESCE(sleep_hours, 0)] is [DECIMAL] and arrives as [Decimal]. *)
Inductive number : Type :=
  | PyInt (z : Z)
  | PyFloat (q : Q)
  | PyDecimal (q : Q).

Definition value (n : number) : Q :=
  match n with
  | PyInt z => inject_Z z
  | PyFloat q => q
  | PyDecimal q => q
  end.

Inductive exception : Type :=
  | TypeError
  | DataError
  | IntegrityError.

Inductive outcome (A : Type) : Type :=
  | Returned (a : A)
  | Raised (e : exception).

Arguments Returned {A} a.
Arguments Raised {A} e.

Definition bind {A B : Type} (x : outcome A) (f : A -> outcome B)
    : outcome B :=
  match x with
  | Returned a => f a
  | Raised e => Raised e
  end.

(** [x + y]: [int] mixes with both other kinds, [float] and [Decimal] do
    not mix with each other. *)
Definition add (x y : number) : outcome number :=
  match x, y with
  | PyInt a, PyInt b => Returned (PyInt (a + b))
  | PyInt a, PyFloat b => Returned (PyFloat (inject_Z a + b))
  | PyFloat a, PyInt b => Returned (PyFloat (a + inject_Z b))
  | PyFloat a, PyFloat b => Returned (PyFloat (a + b))
  | PyInt a, PyDecimal b => Returned (PyDecimal (inject_Z a + b))
  | PyDecimal a, PyInt b => Returned (PyDecimal (a + inject_Z b))
  | PyDecimal a, PyDecimal b => Returned (PyDecimal (a + b))
  | PyFloat _, PyDecimal _ => Raised TypeError
  | PyDecimal _, PyFloat _ => Raised TypeError
  end.

(** [min(x, 25)]: the first argument unless the second is smaller. *)
Definition min_25 (x : number) : number :=
  if Qle_bool (value x) 25 then x else PyInt 25.

(** [int / int] is a [float]. *)
Definition steps_score (d : data) : number :=
  if (0 <? steps d)%Z
  then min_25 (PyFloat (inject_Z (steps d) / 10000 * 25))
  else PyInt 0.

Definition water_score (d : data) : number :=
  if (0 <? water d)%Z
  then min_25 (PyFloat (inject_Z (water d) / 2000 * 25))
  else PyInt 0.

(** [Decimal / int * int] is a [Decimal]. *)
Definition sleep_score (d : data) : number :=
  if Qpositive (sleep d)
  then min_25 (PyDecimal (sleep d / 8 * 25))
  else PyInt 0.

Definition meals_score (d : data) : number :=
  if (0 <? meals_count d)%Z
  then PyFloat ((inject_Z (meals_count d) / 3) * 25)
  else PyInt 0.

Definition mood_scores : list (string * Z) :=
  [ ("excellent", 25%Z); ("good", 20%Z); ("neutral", 15%Z); ("bad", 5%Z);
    ("terrible", 0%Z) ].

Fixpoint get (dict : list (string * Z)) (key : string) (dflt : Z) : Z :=
  match dict with
  | [] => dflt
  | (k, v) :: rest => if String.eqb k key then v else get rest key dflt
  end.

Definition mood_score (d : data) : number :=
  PyInt (get mood_scores (mood d) 15).

(** [steps_score + water_score + sleep_score + meals_score + mood_score],
    added from the left. *)
Definition overall_balance (d : data) : outcome number :=
  bind (add (steps_score d) (water_score d)) (fun s1 =>
  bind (add s1 (sleep_score d)) (fun s2 =>
  bind (add s2 (meals_score d)) (fun s3 =>
  add s3 (mood_score d)))).

(** The parameters of the [UPDATE daily_data] of the helper. *)
Record scores : Type := mk_scores {
  activity : number;
  nutrition : number;
  recovery : number;
  mental : number;
  balance : number
}.

Definition compute_scores (d : data) : outcome scores :=
  bind (overall_balance d) (fun b =>
  Returned {| activity := steps_score d;
              nutrition := meals_score d;
              recovery := sleep_score d;
              mental := mood_score d;
              balance := b |}).

(** *** Writing to the columns *)

(** The rounding of a [numeric] to two places, half away from zero. *)
Definition round_half_up (q : Q) : Q :=
  if Qle_bool 0 q
  then inject_Z (Qfloor (q * 100 + (1 # 2))) / 100
  else - (inject_Z (Qfloor (- q * 100 + (1 # 2))) / 100).

(** [INTEGER]: 32 bits, an error outside. *)
Definition int4 (z : Z) : bool :=
  (-2147483648 <=? z)%Z && (z <=? 2147483647)%Z.

(** [DECIMAL(5,2)]: an error from 1000 on. *)
Definition fits_5_2 (v : Q) : bool :=
  negb (Qle_bool 1000 v) && negb (Qle_bool v (-1000)).

(** [CHECK(mood IN (...))]; [NULL] passes. *)
Definition mood_ok (m : option string) : bool :=
  match m with
  | None => true
  | Some s =>
      existsb (String.eqb s) ["excellent"; "good"; "neutral"; "bad"; "terrible"]
  end.

Section Store.

(** The number a [DECIMAL(5,2)] column holds after a Python [float] of a
    given value has been written to it.  The driver sends the shortest
    decimal text of the binary number, so which of two neighbouring
    hundredths a value halfway between them becomes depends on the binary
    representation; the map is left open. *)
Variable float_to_numeric : Q -> Q.

(** What a [DECIMAL(5,2)] column holds after a Python number has been
    written to it. *)
Definition to_numeric (n : number) : Q :=
  match n with
  | PyInt z => inject_Z z
  | PyFloat q => float_to_numeric q
  | PyDecimal q => round_half_up q
  end.

Definition set_scores (s : scores) (r : daily_row) : daily_row :=
  {| dd_user_id := dd_user_id r;
     dd_date := dd_date r;
     dd_steps := dd_steps r;
     dd_water_ml := dd_water_ml r;
     dd_sleep_hours := dd_sleep_hours r;
     dd_breakfast := dd_breakfast r;
     dd_lunch := dd_lunch r;
     dd_dinner := dd_dinner r;
     dd_mood := dd_mood r;
     activity_score := to_numeric (activity s);
     nutrition_score := to_numeric (nutrition s);
     recovery_score := to_numeric (recovery s);
     mental_score := to_numeric (mental s);
     dd_overall_balance := to_numeric (balance s) |}.

Definition store_scores (user_id date_str : Z) (s : scores)
    (rows : list daily_row) : list daily_row :=
  map (fun r => if is_day user_id date_str r then set_scores s r else r) rows.

(** [update_energy_level]: the scores are computed before the first
    [UPDATE], so a raised [TypeError] leaves the store untouched;
    [float(new_energy)] is written as a [float]. *)
Definition update_energy_level (user_id date_str : Z) (db : database)
    : outcome database :=
  match fetch_data user_id date_str db with
  | None => Returned db
  | Some d =>
      bind (compute_scores d) (fun s =>
      let rows := store_scores user_id date_str s (daily_data db) in
      let e := new_energy (avg_energy user_id date_str rows) in
      Returned
        {| users := set_energy_level user_id (float_to_numeric e) (users db);
           daily_data := rows;
           user_habits := user_habits db;
           habit_completions := habit_completions db |})
  end.

(** *** [POST /daily] *)

(** The request body, with every field the handler tests. *)
Record DailyDataCreate : Type := mk_request {
  rq_user_id : Z;
  rq_date : option Z;
  rq_steps : option Z;
  rq_water_ml : option Z;
  rq_mood : option string;
  rq_sleep_hours : option Q;
  rq_breakfast : option bool;
  rq_lunch : option bool;
  rq_dinner : option bool;
  rq_notes : option string
}.

Definition is_some {A : Type} (x : option A) : bool :=
  match x with
  | Some _ => true
  | None => false
  end.

(** [if update_fields:] the list is non-empty as soon as one field of
    the request is not [None]. *)
Definition has_update_fields (req : DailyDataCreate) : bool :=
  is_some (rq_steps req) || is_some (rq_water_ml req)
  || is_some (rq_mood req) || is_some (rq_sleep_hours req)
  || is_some (rq_breakfast req) || is_some (rq_lunch req)
  || is_some (rq_dinner req) || is_some (rq_notes req).

(** The [INSERT INTO daily_data]: the values must fit their columns; the
    sleep of the request is a [float] and is rounded into its column. *)
Definition insert_row (req : DailyDataCreate) (today : Z)
    : outcome daily_row :=
  let new_steps := COALESCE (rq_steps req) 0%Z in
  let new_water := COALESCE (rq_water_ml req) 0%Z in
  let new_sleep := option_map float_to_numeric (rq_sleep_hours req) in
  if negb (int4 new_steps && int4 new_water) then Raised DataError
  else if negb (fits_5_2 (COALESCE new_sleep 0)) then Raised DataError
  else if negb (mood_ok (rq_mood req)) then Raised IntegrityError
  else
    Returned
      {| dd_user_id := rq_user_id req;
         dd_date := today;
         dd_steps := Some new_steps;
         dd_water_ml := Some new_water;
         dd_sleep_hours := new_sleep;
         dd_breakfast := Some (COALESCE (rq_breakfast req) false);
         dd_lunch := Some (COALESCE (rq_lunch req) false);
         dd_dinner := Some (COALESCE (rq_dinner req) false);
         dd_mood := rq_mood req;
         activity_score := 0;
         nutrition_score := 0;
         recovery_score := 0;
         mental_score := 0;
         dd_overall_balance := 0 |}.

(** The writes of the handler before the helper is called.  On an
    existing day the [UPDATE] has one placeholder for each field and one
    for the id, and is given two parameters more: the driver raises
    [TypeError] whenever there is a field to update. *)
Definition write_day (req : DailyDataCreate) (today : Z) (db : database)
    : outcome database :=
  match fetchone (filter (is_day (rq_user_id req) today) (daily_data db)) with
  | Some _ => if has_update_fields req then Raised TypeError else Returned db
  | None =>
      bind (insert_row req today) (fun r =>
      Returned
        {| users := users db;
           daily_data := (daily_data db ++ [r])%list;
           user_habits := user_habits db;
           habit_completions := habit_completions db |})
  end.

(** The handler: every exception but its own 404 is answered 500 after a
    rollback. *)
Definition update_daily_data (req : DailyDataCreate) (date_today : Z)
    (db : database) : response * database :=
  if existsb (fun u => (u_id u =? rq_user_id req)%Z) (users db) then
    let today := COALESCE (rq_date req) date_today in
    match bind (write_day req today db)
               (update_energy_level (rq_user_id req) today) with
    | Returned db' => (Success, db')
    | Raised _ => (HTTPException 500, db)
    end
  else (HTTPException 404, db).

End Store.

(** *** The reward *)

(** [SET sync_coins = sync_coins + 2] on an [INTEGER] column: an error
    when the sum passes the largest value of the column. *)
Definition coins_fit (user_id : Z) (rows : list user_row) : bool :=
  forallb
    (fun u => negb (u_id u =? user_id)%Z
              || (sync_coins u + 2 <=? 2147483647)%Z)
    rows.

Definition award_for_habit_completion (user_id habit_id : Z) (db : database)
    : outcome database :=
  if coins_fit user_id (users db) then
    Returned
      {| users := update_user user_id add_energy
                    (update_user user_id add_coins (users db));
         daily_data := daily_data db;
         user_habits := user_habits db;
         habit_completions := habit_completions db |}
  else Raised DataError.

(** The reward applied [n] times. *)
Fixpoint award_times (n : nat) (user_id habit_id : Z) (db : database)
    : outcome database :=
  match n with
  | O => Returned db
  | S k =>
      bind (award_times k user_id habit_id db)
        (award_for_habit_completion user_id habit_id)
  end.

(** *** [POST /habits/complete] *)

(** The request body with its optional value. *)
Record HabitCompletion : Type := mk_habit_completion {
  hc_user_id : Z;
  hc_habit_id : Z;
  hc_completed_value : option Z
}.

(** [completion.completed_value or habit['target_value']] is written to
    an [INTEGER] column: a value of the request that is not 0 must fit
    it; for [None] and for 0 the stored target of the habit is written. *)
Definition value_fits (completion : HabitCompletion) : bool :=
  match hc_completed_value completion with
  | Some v => (v =? 0)%Z || int4 v
  | None => true
  end.

(** The handler: the completion row, the streak, the reward; every
    exception but its own 404 is answered 500 after a rollback. *)
Definition complete_habit (owners : list habit_owner)
    (completion : HabitCompletion) (date_today : Z) (db : database)
    : response * database :=
  if habit_found owners (hc_user_id completion) (hc_habit_id completion) db
  then
    let today := date_today in
    let recorded :=
      if value_fits completion
      then Returned (record_completion (hc_habit_id completion) today db)
      else Raised DataError in
    match bind recorded (fun db1 =>
            award_for_habit_completion (hc_user_id completion)
              (hc_habit_id completion)
              (update_habit_streak (hc_habit_id completion) today db1)) with
    | Returned db' => (Success, db')
    | Raised _ => (HTTPException 500, db)
    end
  else (HTTPException 404, db).

End Runtime.

(** ** Auxiliary notions of the statements *)

(** The number of meal flags that are true. *)
Definition count_true (b1 b2 b3 : bool) : Z :=
  Z.of_nat (List.length (filter (fun b : bool => b) [b1; b2; b3])).

(** The order of a list sorted newest first. *)
Definition newer_first (a b : Z) : Prop := (b <= a)%Z.

(** The key of a stored day. *)
Definition day_key (r : daily_row) : Z * Z := (dd_user_id r, dd_date r).





(** [m] consecutive days, newest first, starting at [a]. *)
Fixpoint run (a : Z) (m : nat) : list Z :=
  match m with
  | O => []
  | S k => a :: run (a - 1) k
  end.

(** ** Sample inputs *)

(** A day with every input at its target. *)
Definition full_day : data :=
  {| steps := 10000; water := 2000; sleep := 8;
     breakfast := true; lunch := true; dinner := true; mood := "excellent" |}.

(** The scenario as a stored row. *)
Definition scenario_row : daily_row :=
  {| dd_user_id := 1; dd_date := 100; dd_steps := Some 5000%Z;
     dd_water_ml := Some 1000%Z; dd_sleep_hours := Some 6;
     dd_breakfast := Some true; dd_lunch := Some true;
     dd_dinner := Some false; dd_mood := Some "good";
     activity_score := 0; nutrition_score := 0; recovery_score := 0;
     mental_score := 0; dd_overall_balance := 0 |}.

(** A store with one registered user and nothing else. *)
Definition one_user : database :=
  {| users := [ {| u_id := 1; sync_coins := 0; energy_level := 50 |} ];
     daily_data := []; user_habits := []; habit_completions := [] |}.

(** A request for day 93 with every input at its target. *)
Definition full_request : DailyDataCreate :=
  {| req_user_id := 1; req_date := Some 93%Z; req_steps := Some 10000%Z;
     req_water_ml := Some 2000%Z; req_mood := Some "excellent";
     req_sleep_hours := Some 8; req_breakfast := Some true;
     req_lunch := Some true; req_dinner := Some true |}.

(** A request for day 100 with nothing logged. *)
Definition quiet_request : DailyDataCreate :=
  {| req_user_id := 1; req_date := Some 100%Z; req_steps := Some 0%Z;
     req_water_ml := Some 0%Z; req_mood := None;
     req_sleep_hours := None; req_breakfast := Some false;
     req_lunch := Some false; req_dinner := Some false |}.

(** The user writes the full day on day 93 ... *)
Definition after_day_93 : database :=
  snd (update_daily_data full_request 93 one_user).

(** ... and then the quiet day on day 100. *)
Definition after_day_100 : database :=
  snd (update_daily_data quiet_request 100 after_day_93).


(** A habit completed on days 100, 99 and 97, with a stored streak of 5. *)
Definition streak_db : database :=
  {| users := []; daily_data := [];
     user_habits :=
       [ {| h_id := 1; current_streak := 5; longest_streak := 5 |} ];
     habit_completions :=
       [ {| c_habit_id := 1; c_date := 99; is_completed := true |};
         {| c_habit_id := 1; c_date := 100; is_completed := true |};
         {| c_habit_id := 1; c_date := 97; is_completed := true |} ] |}.

(** A user with one habit and no history. *)
Definition habit_user_db : database :=
  {| users := [ {| u_id := 1; sync_coins := 0; energy_level := 50 |} ];
     daily_data := [];
     user_habits :=
       [ {| h_id := 1; current_streak := 0; longest_streak := 0 |} ];
     habit_completions := [] |}.

(** The habit belongs to the user. *)
Definition sample_owners : list habit_owner :=
  [ {| o_habit_id := 1; o_user_id := 1 |} ].



(** A habit completed on each of the nine days 92 to 100. *)
Definition nine_days_db : database :=
  {| users := []; daily_data := [];
     user_habits :=
       [ {| h_id := 1; current_streak := 0; longest_streak := 0 |} ];
     habit_completions :=
       map (fun d => {| c_habit_id := 1; c_date := d; is_completed := true |})
         [92; 93; 94; 95; 96; 97; 98; 99; 100]%Z |}.

(** The two updates of the reward on the row of the user. *)
Definition reward_step (u : user_row) : user_row := add_energy (add_coins u).

(** ** Sample inputs of the runtime *)

(** The scenario of the specification's test list. *)
Definition scenario : data :=
  {| steps := 5000; water := 1000; sleep := 6;
     breakfast := true; lunch := true; dinner := false; mood := "good" |}.

(** A day at every target, with more than eight hours of sleep. *)
Definition long_sleep_day : data :=
  {| steps := 10000; water := 2000; sleep := 9;
     breakfast := true; lunch := true; dinner := true; mood := "excellent" |}.

(** A day with a good mood and nothing else ... *)
Definition dry_day : data :=
  {| steps := 0; water := 0; sleep := 0;
     breakfast := false; lunch := false; dinner := false; mood := "good" |}.

(** ... and the same day with a litre of water. *)
Definition wet_day : data :=
  {| steps := 0; water := 1000; sleep := 0;
     breakfast := false; lunch := false; dinner := false; mood := "good" |}.

(** A store that rounds every float to the nearest hundredth, halves
    upwards. *)
Definition nearest_hundredth : Q -> Q := Runtime.round_half_up.

(** The scenario as a request for day 100. *)
Definition scenario_request : Runtime.DailyDataCreate :=
  {| Runtime.rq_user_id := 1; Runtime.rq_date := Some 100%Z;
     Runtime.rq_steps := Some 5000%Z; Runtime.rq_water_ml := Some 1000%Z;
     Runtime.rq_mood := Some "good"; Runtime.rq_sleep_hours := Some 6;
     Runtime.rq_breakfast := Some true; Runtime.rq_lunch := Some true;
     Runtime.rq_dinner := Some false; Runtime.rq_notes := None |}.

(** A request for day 93 at every target, with nine hours of sleep. *)
Definition long_sleep_request : Runtime.DailyDataCreate :=
  {| Runtime.rq_user_id := 1; Runtime.rq_date := Some 93%Z;
     Runtime.rq_steps := Some 10000%Z; Runtime.rq_water_ml := Some 2000%Z;
     Runtime.rq_mood := Some "excellent"; Runtime.rq_sleep_hours := Some 9;
     Runtime.rq_breakfast := Some true; Runtime.rq_lunch := Some true;
     Runtime.rq_dinner := Some true; Runtime.rq_notes := None |}.

(** A request for day 100 with nothing logged. *)
Definition nothing_request : Runtime.DailyDataCreate :=
  {| Runtime.rq_user_id := 1; Runtime.rq_date := Some 100%Z;
     Runtime.rq_steps := Some 0%Z; Runtime.rq_water_ml := Some 0%Z;
     Runtime.rq_mood := None; Runtime.rq_sleep_hours := None;
     Runtime.rq_breakfast := Some false; Runtime.rq_lunch := Some false;
     Runtime.rq_dinner := Some false; Runtime.rq_notes := None |}.

(** A request for day 100 with a negative step count. *)
Definition negative_steps_request : Runtime.DailyDataCreate :=
  {| Runtime.rq_user_id := 1; Runtime.rq_date := Some 100%Z;
     Runtime.rq_steps := Some (-5)%Z; Runtime.rq_water_ml := Some 0%Z;
     Runtime.rq_mood := Some "neutral"; Runtime.rq_sleep_hours := None;
     Runtime.rq_breakfast := Some false; Runtime.rq_lunch := Some false;
     Runtime.rq_dinner := Some false; Runtime.rq_notes := None |}.

(** The user writes the long-sleep day on day 93 ... *)
Definition store_after_93 : database :=
  snd (Runtime.update_daily_data nearest_hundredth long_sleep_request 93
         one_user).

(** ... and then the day with nothing logged on day 100. *)
Definition store_after_100 : database :=
  snd (Runtime.update_daily_data nearest_hundredth nothing_request 100
         store_after_93).

(** The energy level stored on the profile of a user. *)
Definition profile_energy (user_id : Z) (db : database) : list Q :=
  map energy_level (filter (fun u => (u_id u =? user_id)%Z) (users db)).

(** A user one point below the energy ceiling. *)
Definition nearly_full : database :=
  {| users := [ {| u_id := 1; sync_coins := 7; energy_level := 99 |} ];
     daily_data := []; user_habits := []; habit_completions := [] |}.

(** The registered user with the scenario as the stored day 100. *)
Definition scenario_store : database :=
  {| users := users one_user; daily_data := [scenario_row];
     user_habits := []; habit_completions := [] |}.

(** The user of [habit_user_db] one coin below the largest value of the
    coin column, with the same habit. *)
Definition rich_habit_db : database :=
  {| users := [ {| u_id := 1; sync_coins := 2147483646; energy_level := 50 |} ];
     daily_data := [];
     user_habits := user_habits habit_user_db;
     habit_completions := [] |}.

(** The completion of habit 1 by user 1, with no value. *)
Definition plain_completion : Runtime.HabitCompletion :=
  {| Runtime.hc_user_id := 1; Runtime.hc_habit_id := 1;
     Runtime.hc_completed_value := None |}.

(** A user one coin below the largest value of the coin column. *)
Definition rich_user : database :=
  {| users := [ {| u_id := 1; sync_coins := 2147483646; energy_level := 50 |} ];
     daily_data := []; user_habits := []; habit_completions := [] |}.

(** * Properties *)

(** ** The entries of the specification's test list *)

Example steps_at_target :
  steps_score {| steps := 10000; water := 0; sleep := 0; breakfast := false;
                 lunch := false; dinner := false; mood := "neutral" |} == 25.
Proof. vm_compute. reflexivity. Qed.

Example steps_above_target :
  steps_score {| steps := 20000; water := 0; sleep := 0; breakfast := false;
                 lunch := false; dinner := false; mood := "neutral" |} == 25.
Proof. vm_compute. reflexivity. Qed.

Example sleep_four_hours :
  sleep_score {| steps := 0; water := 0; sleep := 4; breakfast := false;
                 lunch := false; dinner := false; mood := "neutral" |} == 12.5.
Proof. vm_compute. reflexivity. Qed.

Example three_meals : meals_score full_day == 25.
Proof. vm_compute. reflexivity. Qed.

Example mood_terrible :
  mood_score {| steps := 0; water := 0; sleep := 0; breakfast := false;
                lunch := false; dinner := false; mood := "terrible" |} == 0.
Proof. vm_compute. reflexivity. Qed.

Example energy_of_no_history : new_energy (AVG []) = 50.
Proof. reflexivity. Qed.

Example energy_of_three_days : new_energy (AVG [80; 60; 100]) == 80.
Proof. vm_compute. reflexivity. Qed.

Example streak_of_three_days : compute_streak 100 [100; 99; 98]%Z = 3%Z.
Proof. reflexivity. Qed.

Example streak_with_gap : compute_streak 100 [100; 98]%Z = 1%Z.
Proof. reflexivity. Qed.

Example streak_not_anchored : compute_streak 100 [99; 98; 97]%Z = 0%Z.
Proof. reflexivity. Qed.

(** ** Bounds of the sub-scores *)

Lemma Qmin_cap (x c : Q) : 0 <= x -> 0 <= c -> 0 <= Qmin x c <= c.
Proof.
  intros Hx Hc. split.
  - apply Q.min_glb; assumption.
  - apply Q.le_min_r.
Qed.

Lemma inject_Z_pos (z : Z) : (0 <? z)%Z = true -> 0 < inject_Z z.
Proof.
  intro H. apply Z.ltb_lt in H.
  change 0 with (inject_Z 0). rewrite <- Zlt_Qlt. exact H.
Qed.

Lemma Qpositive_spec (x : Q) : Qpositive x = true <-> 0 < x.
Proof.
  unfold Qpositive. rewrite negb_true_iff. split.
  - intro H. apply Qnot_le_lt. intro Hle.
    apply Qle_bool_iff in Hle. congruence.
  - intro H. destruct (Qle_bool x 0) eqn:E; [|reflexivity].
    apply Qle_bool_iff in E. exfalso. apply (Qlt_not_le _ _ H E).
Qed.

Lemma scaled_nonneg (x k : Q) : 0 <= x -> 0 < k -> 0 <= x / k * 25.
Proof.
  intros Hx Hk. apply Qmult_le_0_compat; [|discriminate].
  unfold Qdiv. apply Qmult_le_0_compat; [assumption|].
  apply Qlt_le_weak, Qinv_lt_0_compat, Hk.
Qed.

Lemma steps_score_bounds (d : data) : 0 <= steps_score d <= 25.
Proof.
  unfold steps_score. destruct (0 <? steps d)%Z eqn:E.
  - apply inject_Z_pos in E.
    apply Qmin_cap; [apply scaled_nonneg; [lra|reflexivity] | discriminate].
  - lra.
Qed.

Lemma water_score_bounds (d : data) : 0 <= water_score d <= 25.
Proof.
  unfold water_score. destruct (0 <? water d)%Z eqn:E.
  - apply inject_Z_pos in E.
    apply Qmin_cap; [apply scaled_nonneg; [lra|reflexivity] | discriminate].
  - lra.
Qed.

Lemma sleep_score_bounds (d : data) : 0 <= sleep_score d <= 25.
Proof.
  unfold sleep_score. destruct (Qpositive (sleep d)) eqn:E.
  - apply Qpositive_spec in E.
    apply Qmin_cap; [apply scaled_nonneg; [lra|reflexivity] | discriminate].
  - lra.
Qed.

Lemma meals_score_bounds (d : data) : 0 <= meals_score d <= 25.
Proof.
  destruct d as [s w sl b l dn m].
  destruct b, l, dn; vm_compute; split; discriminate.
Qed.

(** The lookup only ever produces one of the table's values or the default. *)
Lemma mood_score_cases (d : data) :
  mood_score d = 25 \/ mood_score d = 20 \/ mood_score d = 15
  \/ mood_score d = 5 \/ mood_score d = 0.
Proof.
  unfold mood_score, mood_scores, get.
  destruct ("excellent" =? mood d); [tauto|].
  destruct ("good" =? mood d); [tauto|].
  destruct ("neutral" =? mood d); [tauto|].
  destruct ("bad" =? mood d); [tauto|].
  destruct ("terrible" =? mood d); tauto.
Qed.

Lemma mood_score_bounds (d : data) : 0 <= mood_score d <= 25.
Proof.
  destruct (mood_score_cases d) as [H|[H|[H|[H|H]]]]; rewrite H;
    split; discriminate.
Qed.

Lemma mood_score_default (d : data) :
  mood d <> "excellent" -> mood d <> "good" -> mood d <> "neutral" ->
  mood d <> "bad" -> mood d <> "terrible" -> mood_score d = 15.
Proof.
  intros H1 H2 H3 H4 H5. unfold mood_score, mood_scores, get.
  repeat match goal with
  | |- context [String.eqb ?k (mood d)] =>
      destruct (String.eqb_spec k (mood d)); [congruence|]
  end.
  reflexivity.
Qed.

(** ** The formulas of the four sub-scores *)

(** C7: for a stored day with non-negative steps and sleep, the four
    sub-scores follow the stated formulas; an absent sleep gives recovery
    0 and an absent or unrecognized mood gives mental 15. *)
Theorem sub_score_formulas_C7 (r : daily_row) :
  let d := select_data r in
  (0 <= steps d)%Z -> 0 <= sleep d ->
  steps_score d == Qmin (inject_Z (steps d) / 10000 * 25) 25
  /\ (steps d = 0%Z -> steps_score d = 0)
  /\ sleep_score d == Qmin (sleep d / 8 * 25) 25
  /\ (sleep d == 0 -> sleep_score d = 0)
  /\ (dd_sleep_hours r = None -> sleep_score d = 0)
  /\ meals_score d
     == inject_Z (count_true (breakfast d) (lunch d) (dinner d)) / 3 * 25
  /\ (count_true (breakfast d) (lunch d) (dinner d) = 0%Z -> meals_score d = 0)
  /\ (mood d = "excellent" -> mood_score d = 25)
  /\ (mood d = "good" -> mood_score d = 20)
  /\ (mood d = "neutral" -> mood_score d = 15)
  /\ (mood d = "bad" -> mood_score d = 5)
  /\ (mood d = "terrible" -> mood_score d = 0)
  /\ (dd_mood r = None -> mood_score d = 15)
  /\ (mood d <> "excellent" -> mood d <> "good" -> mood d <> "neutral" ->
      mood d <> "bad" -> mood d <> "terrible" -> mood_score d = 15).
Proof.
  intros d Hsteps Hsleep.
  split; [|split; [|split; [|split; [|split; [|split; [|split]]]]]].
  - unfold steps_score. destruct (0 <? steps d)%Z eqn:E; [reflexivity|].
    apply Z.ltb_ge in E. assert (E0 : steps d = 0%Z) by lia.
    rewrite E0. reflexivity.
  - intro E0. unfold steps_score. rewrite E0. reflexivity.
  - unfold sleep_score. destruct (Qpositive (sleep d)) eqn:E; [reflexivity|].
    assert (E0 : sleep d == 0).
    { apply Qle_antisym; [|assumption].
      apply Qnot_lt_le. intro Hlt. apply Qpositive_spec in Hlt. congruence. }
    rewrite E0. reflexivity.
  - intro E0. unfold sleep_score.
    destruct (Qpositive (sleep d)) eqn:E; [|reflexivity].
    apply Qpositive_spec in E. rewrite E0 in E. discriminate E.
  - intro E0. subst d. unfold sleep_score, select_data; cbn [sleep].
    rewrite E0. reflexivity.
  - unfold meals_score, meals_count, count_true.
    destruct (breakfast d), (lunch d), (dinner d); reflexivity.
  - unfold meals_score, meals_count, count_true.
    destruct (breakfast d), (lunch d), (dinner d); cbn; intro H;
      try discriminate H; reflexivity.
  - repeat split; try (intro E; unfold mood_score; rewrite E; reflexivity).
    + intro E. subst d. unfold mood_score, select_data; cbn [mood].
      rewrite E. reflexivity.
    + apply mood_score_default.
Qed.

Lemma sub_score_formulas_C7_witness :
  (0 <= steps (select_data scenario_row))%Z
  /\ 0 <= sleep (select_data scenario_row)
  /\ steps_score (select_data scenario_row)
     == Qmin (inject_Z (steps (select_data scenario_row)) / 10000 * 25) 25.
Proof.
  assert (H1 : (0 <= steps (select_data scenario_row))%Z) by (cbn; lia).
  assert (H2 : 0 <= sleep (select_data scenario_row)) by (cbn; discriminate).
  split; [exact H1|]. split; [exact H2|].
  destruct (sub_score_formulas_C7 scenario_row H1 H2) as [H _]. exact H.
Defined.

(** ** The energy level *)

Lemma Qsum_bounds (B : Q) (l : list Q) :
  (forall q, In q l -> 0 <= q <= B) ->
  0 <= Qsum l <= B * inject_Z (Z.of_nat (List.length l)).
Proof.
  induction l as [|q l IH]; intro H.
  - cbn. split; [apply Qle_refl | rewrite Qmult_0_r; apply Qle_refl].
  - assert (Hq : 0 <= q <= B) by (apply H; left; reflexivity).
    assert (Hl : 0 <= Qsum l <= B * inject_Z (Z.of_nat (List.length l)))
      by (apply IH; intros q' Hq'; apply H; right; exact Hq').
    cbn [Qsum fold_right List.length]. fold (Qsum l).
    rewrite Nat2Z.inj_succ, <- Z.add_1_r, inject_Z_plus.
    change (inject_Z 1) with 1. split; lra.
Qed.

Lemma length_pos (A : Type) (x : A) (l : list A) :
  0 < inject_Z (Z.of_nat (List.length (x :: l))).
Proof.
  change 0 with (inject_Z 0). rewrite <- Zlt_Qlt. cbn [List.length]. lia.
Qed.

(** The mean of numbers of [0, B] lies in [0, B]. *)
Lemma AVG_bounds (B : Q) (l : list Q) (a : Q) :
  (forall q, In q l -> 0 <= q <= B) -> AVG l = Some a -> 0 <= a <= B.
Proof.
  intros H Ha. destruct l as [|x l]; [discriminate Ha|].
  cbn [AVG] in Ha. injection Ha as <-.
  pose proof (Qsum_bounds B (x :: l) H) as [Hlo Hhi].
  pose proof (length_pos Q x l) as Hn.
  split.
  - apply Qle_shift_div_l; [exact Hn|]. rewrite Qmult_0_l. exact Hlo.
  - apply Qle_shift_div_r; [exact Hn|]. exact Hhi.
Qed.

Lemma truthy_false (a : Q) : a == 0 -> truthy a = false.
Proof.
  intro H. unfold truthy. apply Qeq_bool_iff in H. rewrite H. reflexivity.
Qed.

Lemma truthy_true (a : Q) : ~ a == 0 -> truthy a = true.
Proof.
  intro H. unfold truthy. destruct (Qeq_bool a 0) eqn:E; [|reflexivity].
  apply Qeq_bool_iff in E. contradiction.
Qed.

Lemma in_window_spec (user_id date_str : Z) (rows : list daily_row)
    (r : daily_row) :
  In r (filter (in_window user_id date_str) rows)
  <-> In r rows /\ dd_user_id r = user_id /\ (date_str - 7 <= dd_date r)%Z.
Proof.
  rewrite filter_In. unfold in_window.
  rewrite andb_true_iff, Z.eqb_eq, Z.leb_le. tauto.
Qed.




(** ** The streak *)

Lemma insert_desc_perm (x : Z) (l : list Z) :
  Permutation (x :: l) (insert_desc x l).
Proof.
  induction l as [|y l IH]; cbn [insert_desc]; [reflexivity|].
  destruct (y <=? x)%Z; [reflexivity|].
  rewrite perm_swap. apply perm_skip, IH.
Qed.

Lemma insert_desc_hd (x a : Z) (l : list Z) :
  HdRel newer_first a l -> newer_first a x ->
  HdRel newer_first a (insert_desc x l).
Proof.
  intros Hl Hx. destruct l as [|y l]; cbn [insert_desc].
  - constructor. exact Hx.
  - destruct (y <=? x)%Z; constructor; [exact Hx|].
    inversion Hl; assumption.
Qed.

Lemma insert_desc_sorted (x : Z) (l : list Z) :
  Sorted newer_first l -> Sorted newer_first (insert_desc x l).
Proof.
  induction l as [|y l IH]; intro Hs; cbn [insert_desc].
  - repeat constructor.
  - destruct (y <=? x)%Z eqn:E.
    + constructor; [exact Hs|]. constructor. apply Z.leb_le. exact E.
    + inversion Hs as [|? ? Hs' Hhd]; subst.
      constructor; [apply IH, Hs'|].
      apply insert_desc_hd; [exact Hhd|].
      apply Z.leb_gt in E. unfold newer_first. lia.
Qed.

Lemma order_by_desc_sorted (l : list Z) : Sorted newer_first (order_by_desc l).
Proof.
  induction l as [|x l IH]; cbn; [constructor|].
  apply insert_desc_sorted, IH.
Qed.

Lemma order_by_desc_perm (l : list Z) : Permutation l (order_by_desc l).
Proof.
  induction l as [|x l IH]; cbn; [constructor|].
  rewrite <- insert_desc_perm. apply perm_skip, IH.
Qed.

(** The loop counts the longest prefix in which position [k] holds the
    date [current_date - (i + k)], and stops at the first position that
    does not, or at the end of the list. *)
Lemma streak_loop_spec (current_date : Z) (completions : list Z) :
  forall i current_streak,
  exists n : nat,
    streak_loop current_date i completions current_streak
      = (current_streak + Z.of_nat n)%Z
    /\ (n <= List.length completions)%nat
    /\ (forall k, (k < n)%nat ->
          nth_error completions k = Some (current_date - (i + Z.of_nat k))%Z)
    /\ (n = List.length completions
        \/ exists comp_date,
             nth_error completions n = Some comp_date
             /\ comp_date <> (current_date - (i + Z.of_nat n))%Z).
Proof.
  induction completions as [|comp_date rest IH]; intros i cs.
  - exists 0%nat. cbn. repeat split; [lia|lia| |left; reflexivity].
    intros k Hk. lia.
  - cbn [streak_loop]. destruct (comp_date =? current_date - i)%Z eqn:E.
    + destruct (IH (i + 1)%Z (cs + 1)%Z) as [n [Hres [Hlen [Hpre Hstop]]]].
      exists (S n). split; [rewrite Hres; lia|].
      split; [cbn [List.length]; lia|]. split.
      * intros [|k] Hk; cbn [nth_error].
        -- apply Z.eqb_eq in E. rewrite E. f_equal. lia.
        -- rewrite Hpre by lia. f_equal. lia.
      * destruct Hstop as [Hstop|[x [Hx Hne]]].
        -- left. cbn [List.length]. congruence.
        -- right. exists x. cbn [nth_error]. split; [exact Hx|].
           intro Hc. apply Hne. lia.
    + exists 0%nat. split; [lia|]. split; [cbn [List.length]; lia|]. split.
      * intros k Hk. lia.
      * right. exists comp_date. cbn [nth_error]. split; [reflexivity|].
        apply Z.eqb_neq in E. intro Hc. apply E. lia.
Qed.

Lemma Forall2_map_self (A : Type) (R : A -> A -> Prop) (f : A -> A)
    (l : list A) :
  (forall x, R x (f x)) -> Forall2 R l (map f l).
Proof.
  intro H. induction l as [|x l IH]; cbn; constructor; [apply H | exact IH].
Qed.

(** C5: the helper reads the seven newest completed dates of the habit,
    newest first, and the current streak it stores is the number [n] of
    leading positions [k] whose date is the anchor date minus [k]: it
    stops at the first position that differs or at the end of the list,
    so it is at most 7; no completion gives 0 and a single completion on
    the anchor date gives 1. *)
Theorem streak_walk_C5 (habit_id date_str : Z) (db : database) :
  let every := completed_dates habit_id db in
  let completions := fetch_completions habit_id db in
  let current := compute_streak date_str completions in
  Sorted newer_first every
  /\ Permutation
       (map c_date (filter (completed_for habit_id) (habit_completions db)))
       every
  /\ completions = firstn 7 every
  /\ (exists n : nat,
        current = Z.of_nat n
        /\ (n <= List.length completions)%nat /\ (n <= 7)%nat
        /\ (forall k, (k < n)%nat ->
              nth_error completions k = Some (date_str - Z.of_nat k)%Z)
        /\ (n = List.length completions
            \/ exists comp_date,
                 nth_error completions n = Some comp_date
                 /\ comp_date <> (date_str - Z.of_nat n)%Z))
  /\ (every = [] -> current = 0%Z)
  /\ (every = [date_str] -> current = 1%Z)
  /\ Forall2 (fun h h' =>
                h_id h' = h_id h
                /\ if (h_id h =? habit_id)%Z
                   then current_streak h' = current
                   else h' = h)
       (user_habits db)
       (user_habits (update_habit_streak habit_id date_str db)).
Proof.
  intros every completions current.
  split; [apply order_by_desc_sorted|].
  split; [apply order_by_desc_perm|].
  split; [reflexivity|].
  split; [|split; [|split]].
  - destruct (streak_loop_spec date_str completions 0%Z 0%Z)
      as [n [Hres [Hlen [Hpre Hstop]]]].
    exists n. split; [exact Hres|]. split; [exact Hlen|].
    split; [|split].
    + assert (H7 : (List.length completions <= 7)%nat)
        by apply firstn_le_length.
      lia.
    + intros k Hk. rewrite (Hpre k Hk). reflexivity.
    + destruct Hstop as [Hstop|[x [Hx Hne]]]; [left; exact Hstop|].
      right. exists x. split; [exact Hx|exact Hne].
  - intro H. subst current completions. unfold fetch_completions.
    fold every. rewrite H. reflexivity.
  - intro H. subst current completions. unfold fetch_completions.
    fold every. rewrite H. cbn. rewrite Z.sub_0_r, Z.eqb_refl. reflexivity.
  - unfold update_habit_streak. cbn [user_habits].
    apply Forall2_map_self. intro h.
    destruct (h_id h =? habit_id)%Z; split; reflexivity.
Qed.

(** C6: the helper overwrites the current streak and stores the maximum
    of the old longest streak and the new current streak.  The longest
    streak never decreases and is at least the current streak afterwards;
    a stored longest streak of 5 with a new current streak of 2 stays 5,
    while the current streak drops from 5 to 2. *)
Theorem longest_streak_max_C6 (habit_id date_str : Z) (db : database) :
  let current := compute_streak date_str (fetch_completions habit_id db) in
  Forall2 (fun h h' =>
             h_id h' = h_id h
             /\ if (h_id h =? habit_id)%Z
                then current_streak h' = current
                     /\ longest_streak h' = Z.max (longest_streak h) current
                     /\ (longest_streak h <= longest_streak h')%Z
                     /\ (current_streak h' <= longest_streak h')%Z
                else h' = h)
    (user_habits db)
    (user_habits (update_habit_streak habit_id date_str db))
  /\ user_habits (update_habit_streak 1 100 streak_db)
     = [ {| h_id := 1; current_streak := 2; longest_streak := 5 |} ].
Proof.
  intro current. split; [|reflexivity].
  unfold update_habit_streak. cbn [user_habits].
  apply Forall2_map_self. intro h.
  destruct (h_id h =? habit_id)%Z; split; try reflexivity.
  cbn [set_streak current_streak longest_streak]. fold current.
  repeat split; lia.
Qed.

(** * Further properties of the code *)

Lemma scaled_mono (x y k : Q) : 0 < k -> x <= y -> x / k * 25 <= y / k * 25.
Proof.
  intros Hk Hxy. apply Qmult_le_compat_r; [|discriminate].
  unfold Qdiv. apply Qmult_le_compat_r; [exact Hxy|].
  apply Qlt_le_weak, Qinv_lt_0_compat, Hk.
Qed.

(** A capped ramp [min(x / k * 25, 25)] guarded by [x > 0] is monotone. *)
Lemma ramp_mono (bx byy : bool) (x y k : Q) :
  0 < k -> x <= y -> (bx = true <-> 0 < x) -> (byy = true <-> 0 < y) ->
  (if bx then Qmin (x / k * 25) 25 else 0)
  <= (if byy then Qmin (y / k * 25) 25 else 0).
Proof.
  intros Hk Hxy Hx Hy. destruct bx, byy.
  - apply Q.min_le_compat_r, scaled_mono; assumption.
  - assert (H0 : 0 < x) by (apply Hx; reflexivity).
    assert (H1 : 0 < y) by lra. apply Hy in H1. discriminate H1.
  - assert (H1 : 0 < y) by (apply Hy; reflexivity).
    apply Q.min_glb; [|discriminate].
    apply scaled_nonneg; [lra | exact Hk].
  - apply Qle_refl.
Qed.

Lemma Zpositive_spec (z : Z) : (0 <? z)%Z = true <-> 0 < inject_Z z.
Proof.
  rewrite Z.ltb_lt. change 0 with (inject_Z 0). rewrite <- Zlt_Qlt. tauto.
Qed.

Lemma meals_score_mono (d1 d2 : data) :
  (meals_count d1 <= meals_count d2)%Z -> meals_score d1 <= meals_score d2.
Proof.
  destruct d1 as [s1 w1 sl1 b1 l1 dn1 m1], d2 as [s2 w2 sl2 b2 l2 dn2 m2].
  unfold meals_score, meals_count; cbn [breakfast lunch dinner].
  destruct b1, l1, dn1, b2, l2, dn2; cbn; intro H; try lia; discriminate.
Qed.

(** A capped ramp reaches its ceiling exactly from the target on. *)
Lemma ramp_full (b : bool) (x k : Q) :
  0 < k -> (b = true <-> 0 < x) ->
  ((if b then Qmin (x / k * 25) 25 else 0) == 25 <-> k <= x).
Proof.
  intros Hk Hb.
  assert (Hk0 : ~ k == 0) by (intro E; rewrite E in Hk; discriminate Hk).
  assert (Hinv : 0 < / k) by (apply Qinv_lt_0_compat, Hk).
  assert (Hscale : x / k * 25 == 25 + (x - k) * (25 * / k))
    by (field; exact Hk0).
  assert (Hc : 0 < 25 * / k)
    by (apply Qmult_lt_0_compat; [reflexivity | exact Hinv]).
  split.
  - intro H. destruct b; [|discriminate H].
    assert (H1 : 25 <= x / k * 25)
      by (rewrite <- H at 1; apply Q.le_min_l).
    rewrite Hscale in H1.
    destruct (Qlt_le_dec x k) as [Hlt|Hle]; [|exact Hle].
    exfalso.
    assert (Hneg : (x - k) * (25 * / k) < 0).
    { rewrite Qmult_comm. rewrite <- (Qmult_0_r (25 * / k)).
      apply Qmult_lt_l; [exact Hc | lra]. }
    lra.
  - intro H.
    assert (Hx : 0 < x) by lra. apply Hb in Hx. rewrite Hx.
    apply Q.min_r. rewrite Hscale.
    assert (Hpos : 0 <= (x - k) * (25 * / k))
      by (apply Qmult_le_0_compat; [lra | apply Qlt_le_weak, Hc]).
    lra.
Qed.

Lemma meals_score_full (d : data) :
  meals_score d == 25
  <-> breakfast d = true /\ lunch d = true /\ dinner d = true.
Proof.
  destruct d as [s w sl b l dn m].
  unfold meals_score, meals_count; cbn [breakfast lunch dinner].
  destruct b, l, dn; cbn; split; intro H;
    try discriminate H; try (destruct H as (H1 & H2 & H3); discriminate);
    repeat split.
Qed.

Lemma mood_score_full (d : data) :
  mood_score d == 25 <-> mood d = "excellent".
Proof.
  unfold mood_score, mood_scores, get.
  destruct (String.eqb_spec "excellent" (mood d)) as [E|E].
  - split; [intros _; symmetry; exact E | intros _; reflexivity].
  - split; [|intro H; symmetry in H; contradiction].
    destruct ("good" =? mood d); [intro H; discriminate H|].
    destruct ("neutral" =? mood d); [intro H; discriminate H|].
    destruct ("bad" =? mood d); [intro H; discriminate H|].
    destruct ("terrible" =? mood d); intro H; discriminate H.
Qed.

(** ** Recomputing the energy level *)






(** The helper writes the four score columns and the balance of the rows
    of the day, and the energy level of the user; it leaves every fact
    column, every other day, every other user, the coins, the habits and
    the completions as they were. *)
Theorem update_energy_level_frame (user_id date_str : Z) (db : database) :
  let db' := update_energy_level user_id date_str db in
  user_habits db' = user_habits db
  /\ habit_completions db' = habit_completions db
  /\ Forall2 (fun r r' =>
                day_key r' = day_key r
                /\ dd_steps r' = dd_steps r
                /\ dd_water_ml r' = dd_water_ml r
                /\ dd_sleep_hours r' = dd_sleep_hours r
                /\ dd_breakfast r' = dd_breakfast r
                /\ dd_lunch r' = dd_lunch r
                /\ dd_dinner r' = dd_dinner r
                /\ dd_mood r' = dd_mood r
                /\ (is_day user_id date_str r = false -> r' = r))
       (daily_data db) (daily_data db')
  /\ Forall2 (fun u u' =>
                u_id u' = u_id u /\ sync_coins u' = sync_coins u
                /\ (u_id u <> user_id -> u' = u))
       (users db) (users db').
Proof.
  intro db'. subst db'. unfold update_energy_level.
  destruct (fetch_data user_id date_str db) as [d|];
    cbn [users daily_data user_habits habit_completions].
  - split; [reflexivity|]. split; [reflexivity|]. split.
    + unfold store_scores. apply Forall2_map_self. intro r.
      destruct (is_day user_id date_str r); repeat split;
        intro H; discriminate H.
    + unfold set_energy_level. apply Forall2_map_self. intro u.
      destruct (u_id u =? user_id)%Z eqn:E; repeat split.
      intro H. apply Z.eqb_eq in E. contradiction.
  - split; [reflexivity|]. split; [reflexivity|]. split.
    + rewrite <- (map_id (daily_data db)) at 2.
      apply Forall2_map_self. intro r. repeat split.
    + rewrite <- (map_id (users db)) at 2.
      apply Forall2_map_self. intro u. repeat split.
Qed.




(** ** The order of the rows *)

Lemma filter_Permutation (A : Type) (f : A -> bool) (l l' : list A) :
  Permutation l l' -> Permutation (filter f l) (filter f l').
Proof.
  induction 1 as [|x l l' _ IH|x y l|l l' l'' _ IH1 _ IH2]; cbn [filter].
  - constructor.
  - destruct (f x); [apply perm_skip|]; exact IH.
  - destruct (f x), (f y); try reflexivity. apply perm_swap.
  - etransitivity; eassumption.
Qed.

Lemma Qsum_Permutation (l l' : list Q) : Permutation l l' -> Qsum l == Qsum l'.
Proof.
  induction 1 as [|x l l' _ IH|x y l|l l' l'' _ IH1 _ IH2];
    cbn [Qsum fold_right]; fold Qsum.
  - reflexivity.
  - fold (Qsum l) (Qsum l'). rewrite IH. reflexivity.
  - fold (Qsum l). ring.
  - rewrite IH1. exact IH2.
Qed.

Lemma new_energy_Qeq (a b : Q) :
  a == b -> new_energy (Some a) == new_energy (Some b).
Proof.
  intro H. cbn [new_energy]. unfold truthy. rewrite H.
  destruct (Qeq_bool b 0); cbn [negb]; [reflexivity | exact H].
Qed.

(** The energy level does not depend on the order in which the rows of
    [daily_data] are stored or returned. *)
Theorem energy_level_order_independent (user_id date_str : Z)
    (rows rows' : list daily_row) :
  Permutation rows rows' ->
  new_energy (avg_energy user_id date_str rows)
  == new_energy (avg_energy user_id date_str rows').
Proof.
  intro Hp. unfold avg_energy.
  assert (Hw : Permutation (window_balances user_id date_str rows)
                           (window_balances user_id date_str rows'))
    by (unfold window_balances; apply Permutation_map, filter_Permutation, Hp).
  pose proof (Permutation_length Hw) as Hlen.
  pose proof (Qsum_Permutation _ _ Hw) as Hsum.
  destruct (window_balances user_id date_str rows) as [|x l];
    destruct (window_balances user_id date_str rows') as [|y l'];
    try discriminate Hlen; [reflexivity|].
  cbn [AVG]. apply new_energy_Qeq. rewrite Hlen, Hsum. reflexivity.
Qed.

Lemma energy_level_order_independent_witness :
  new_energy (avg_energy 1 100 (daily_data after_day_100))
  == new_energy (avg_energy 1 100 (rev (daily_data after_day_100))).
Proof.
  apply (energy_level_order_independent 1 100 (daily_data after_day_100)
           (rev (daily_data after_day_100))).
  apply Permutation_rev.
Defined.

(** ** Reading a day that has no row *)

Lemma filter_snoc_day (user_id target_date : Z) (rows : list daily_row) :
  filter (is_day user_id target_date) rows = [] ->
  filter (is_day user_id target_date)
    (rows ++ [default_row user_id target_date])
  = [default_row user_id target_date].
Proof.
  intro E. rewrite filter_app, E. cbn [filter app].
  unfold is_day. cbn [default_row dd_user_id dd_date].
  rewrite !Z.eqb_refl. reflexivity.
Qed.

(** Reading the same day a second time gives the same answer and leaves
    the store as the first read left it: the row of a day is created at
    most once. *)
Theorem get_daily_data_twice (user_id : Z) (date_str : option Z)
    (date_today : Z) (db : database) :
  let first := get_daily_data user_id date_str date_today db in
  get_daily_data user_id date_str date_today (snd first) = first.
Proof.
  intro first. subst first. unfold get_daily_data.
  set (target_date := COALESCE date_str date_today).
  destruct (filter (is_day user_id target_date) (daily_data db))
    as [|r rest] eqn:E; cbn [fetchone].
  - destruct (existsb (fun u => (u_id u =? user_id)%Z) (users db)) eqn:Eu;
      cbn [snd daily_data users].
    + rewrite (filter_snoc_day _ _ _ E). cbn [fetchone]. reflexivity.
    + rewrite E, Eu. reflexivity.
  - cbn [snd]. rewrite E. reflexivity.
Qed.

(** A day that was only read counts in the energy level as a day of
    balance 0: for a registered user, reading a day without a row that
    lies in the window of [date_str] appends one 0 to the balances that
    are averaged. *)
Theorem reading_a_day_adds_a_zero (user_id target_date date_today date_str : Z)
    (db : database) :
  existsb (fun u => (u_id u =? user_id)%Z) (users db) = true ->
  filter (is_day user_id target_date) (daily_data db) = [] ->
  (date_str - 7 <= target_date)%Z ->
  window_balances user_id date_str
    (daily_data (snd (get_daily_data user_id (Some target_date) date_today db)))
  = (window_balances user_id date_str (daily_data db) ++ [0])%list.
Proof.
  intros Hu He Hw. unfold get_daily_data. cbn [COALESCE].
  rewrite He. cbn [fetchone]. rewrite Hu. cbn [snd daily_data].
  unfold window_balances. rewrite filter_app, map_app. f_equal.
  cbn [filter]. unfold in_window. cbn [default_row dd_user_id dd_date].
  rewrite Z.eqb_refl. apply Z.leb_le in Hw. rewrite Hw. reflexivity.
Qed.

Lemma reading_a_day_adds_a_zero_witness :
  window_balances 1 100
    (daily_data (snd (get_daily_data 1 (Some 98%Z) 98 after_day_93)))
  = (window_balances 1 100 (daily_data after_day_93) ++ [0])%list.
Proof.
  apply (reading_a_day_adds_a_zero 1 98 98 100 after_day_93);
    [reflexivity | reflexivity | lia].
Defined.

(** ** Invariants of the store *)



















(** ** The streak and the seven-row limit *)

Lemma streak_loop_ge (current_date : Z) (completions : list Z) (i c : Z) :
  (c <= streak_loop current_date i completions c)%Z.
Proof.
  destruct (streak_loop_spec current_date completions i c) as [n [H _]].
  rewrite H. lia.
Qed.

(** Cutting the list after [k] rows caps the count at [k]. *)
Lemma streak_loop_firstn (current_date : Z) (completions : list Z) :
  forall (k : nat) (i c : Z),
  streak_loop current_date i (firstn k completions) c
  = Z.min (streak_loop current_date i completions c) (c + Z.of_nat k).
Proof.
  induction completions as [|x rest IH]; intros k i c.
  - rewrite firstn_nil. cbn [streak_loop]. lia.
  - destruct k as [|k].
    + cbn [firstn streak_loop].
      pose proof (streak_loop_ge current_date (x :: rest) i c).
      cbn [streak_loop] in H. lia.
    + cbn [firstn streak_loop].
      destruct (x =? current_date - i)%Z; [rewrite IH|]; lia.
Qed.

Lemma streak_loop_run (current_date : Z) (m : nat) :
  forall i c,
  streak_loop current_date i (run (current_date - i) m) c
  = (c + Z.of_nat m)%Z.
Proof.
  induction m as [|m IH]; intros i c; cbn [run streak_loop]; [lia|].
  rewrite Z.eqb_refl.
  replace (current_date - i - 1)%Z with (current_date - (i + 1))%Z by lia.
  rewrite IH. lia.
Qed.

(** A habit completed on [m] consecutive days up to the anchor date, and
    on no other day, gets the streak [min(m, 7)]: the streak of an
    unbroken run of more than seven days is reported as 7. *)
Theorem unbroken_run_capped_at_7 (habit_id date_str : Z) (m : nat)
    (db : database) :
  completed_dates habit_id db = run date_str m ->
  compute_streak date_str (fetch_completions habit_id db)
  = Z.min (Z.of_nat m) 7.
Proof.
  intro H. unfold compute_streak, fetch_completions. rewrite H.
  rewrite streak_loop_firstn.
  replace (run date_str m) with (run (date_str - 0) m)
    by (rewrite Z.sub_0_r; reflexivity).
  rewrite streak_loop_run. cbn. lia.
Qed.

Lemma unbroken_run_capped_at_7_witness :
  compute_streak 100 (fetch_completions 1 nine_days_db) = Z.min (Z.of_nat 9) 7.
Proof.
  apply (unbroken_run_capped_at_7 1 100 9 nine_days_db). reflexivity.
Defined.

(** The streak is positive exactly when the newest completed date of the
    habit is the anchor date; otherwise it is 0, whatever the history. *)
Theorem streak_positive_iff_newest_is_anchor (habit_id date_str : Z)
    (db : database) :
  (0 < compute_streak date_str (fetch_completions habit_id db))%Z
  <-> hd_error (completed_dates habit_id db) = Some date_str.
Proof.
  unfold compute_streak, fetch_completions.
  destruct (completed_dates habit_id db) as [|x rest];
    cbn [firstn streak_loop hd_error].
  - split; [lia | discriminate].
  - rewrite Z.sub_0_r. destruct (Z.eqb_spec x date_str) as [->|Hne].
    + split; [reflexivity|]. intros _.
      match goal with
      | |- (0 < streak_loop ?a ?i ?l ?c)%Z =>
          pose proof (streak_loop_ge a l i c)
      end.
      lia.
    + split; [lia|]. intro H. injection H as H. contradiction.
Qed.

(** Recomputing the streak of a habit a second time changes nothing. *)
Theorem update_habit_streak_idempotent (habit_id date_str : Z)
    (db : database) :
  update_habit_streak habit_id date_str
    (update_habit_streak habit_id date_str db)
  = update_habit_streak habit_id date_str db.
Proof.
  unfold update_habit_streak, fetch_completions, completed_dates.
  cbn [users daily_data user_habits habit_completions].
  f_equal. rewrite map_map. apply map_ext. intro h.
  destruct (h_id h =? habit_id)%Z eqn:E.
  - cbn [set_streak h_id]. rewrite E. unfold set_streak.
    cbn [h_id current_streak longest_streak]. f_equal. lia.
  - rewrite E. reflexivity.
Qed.

(** ** Completing a habit *)






(** A habit that the user does not own cannot be completed: the answer is
    404 and the store, coins included, is unchanged. *)
Theorem foreign_habit_rejected (owners : list habit_owner)
    (completion : HabitCompletion) (today : Z) (db : database) :
  (forall o, In o owners -> o_habit_id o = hc_habit_id completion ->
             o_user_id o <> hc_user_id completion) ->
  complete_habit owners completion today db = (HTTPException 404, db).
Proof.
  intro H. unfold complete_habit, habit_found.
  assert (E : existsb
                (fun o => (o_habit_id o =? hc_habit_id completion)%Z
                          && (o_user_id o =? hc_user_id completion)%Z)
                owners = false).
  { apply not_true_is_false. intro Hex. apply existsb_exists in Hex.
    destruct Hex as [o [Hin Ho]]. apply andb_true_iff in Ho.
    destruct Ho as [H1 H2]. apply Z.eqb_eq in H1, H2.
    apply (H o Hin H1 H2). }
  rewrite E, andb_false_r. reflexivity.
Qed.

Lemma foreign_habit_rejected_witness :
  complete_habit sample_owners {| hc_user_id := 2; hc_habit_id := 1 |} 93
    habit_user_db
  = (HTTPException 404, habit_user_db).
Proof.
  apply (foreign_habit_rejected sample_owners
           {| hc_user_id := 2; hc_habit_id := 1 |} 93 habit_user_db).
  intros o [<-|[]] _. cbn. lia.
Defined.

(** ** The progress figure of the dashboard *)

Lemma filter_length_le_Z (A : Type) (p : A -> bool) (l : list A) :
  (List.length (filter p l) <= List.length l)%nat.
Proof.
  induction l as [|x l IH]; cbn [filter List.length]; [lia|].
  destruct (p x); cbn [List.length]; lia.
Qed.

Lemma filter_length_all (A : Type) (p : A -> bool) (l : list A) :
  List.length (filter p l) = List.length l <-> Forall (fun x => p x = true) l.
Proof.
  induction l as [|x l IH]; cbn [filter List.length].
  - split; [constructor | reflexivity].
  - pose proof (filter_length_le_Z A p l) as Hle.
    destruct (p x) eqn:E; cbn [List.length]; split; intro H.
    + constructor; [exact E | apply IH; lia].
    + inversion H; subst. f_equal. apply IH. assumption.
    + lia.
    + inversion H; subst. congruence.
Qed.

(** The progress of the day lies in [0, 100]; it is 0 when the user has
    no habit, and 100 exactly when there is at least one habit and every
    joined row is completed. *)
Theorem daily_progress_range (habits : list (option bool)) :
  0 <= daily_progress habits <= 100
  /\ (habits = [] -> daily_progress habits = 0)
  /\ (daily_progress habits == 100
      <-> habits <> [] /\ Forall (fun c => c = Some true) habits).
Proof.
  unfold daily_progress, total_habits, completed_habits.
  pose proof (filter_length_le_Z _ (fun c => COALESCE c false) habits) as Hle.
  pose proof (filter_length_all _ (fun c => COALESCE c false) habits) as Hall.
  set (c := List.length (filter (fun c => COALESCE c false) habits)) in *.
  set (t := List.length habits) in *.
  assert (Hsome : Forall (fun c => COALESCE c false = true) habits
                  <-> Forall (fun c => c = Some true) habits).
  { split; intro H; eapply Forall_impl; try exact H; cbv beta;
      intros [[|]|]; cbn; congruence. }
  destruct habits as [|h habits].
  { subst c t. cbn. split; [split; discriminate|]. split; [reflexivity|].
    split; [intro H; vm_compute in H; discriminate H
           | intros [H _]; contradiction]. }
  assert (Ht : (0 < t)%nat) by (subst t; cbn [List.length]; lia).
  assert (Htz : (0 <? Z.of_nat t)%Z = true) by (apply Z.ltb_lt; lia).
  rewrite Htz.
  assert (Htq : 0 < inject_Z (Z.of_nat t))
    by (change 0 with (inject_Z 0); rewrite <- Zlt_Qlt; lia).
  assert (Hcq : 0 <= inject_Z (Z.of_nat c))
    by (change 0 with (inject_Z 0); rewrite <- Zle_Qle; lia).
  assert (Hct : inject_Z (Z.of_nat c) <= inject_Z (Z.of_nat t))
    by (rewrite <- Zle_Qle; lia).
  assert (Hr0 : 0 <= inject_Z (Z.of_nat c) / inject_Z (Z.of_nat t))
    by (apply Qle_shift_div_l; [exact Htq | lra]).
  assert (Hr1 : inject_Z (Z.of_nat c) / inject_Z (Z.of_nat t) <= 1)
    by (apply Qle_shift_div_r; [exact Htq | lra]).
  split; [split; lra|]. split; [intro H; discriminate H|].
  split.
  - intro H. split; [discriminate|]. apply Hsome, Hall.
    assert (H1 : inject_Z (Z.of_nat c) / inject_Z (Z.of_nat t) == 1) by lra.
    assert (H2 : inject_Z (Z.of_nat c) == inject_Z (Z.of_nat t)).
    { rewrite <- (Qmult_div_r (inject_Z (Z.of_nat c))
                    (inject_Z (Z.of_nat t))) by lra.
      rewrite H1. ring. }
    apply (proj1 (inject_Z_injective _ _)) in H2. apply Nat2Z.inj, H2.
  - intros [_ H]. apply Hsome, Hall in H. rewrite H.
    field. lra.
Qed.

(** ** The streak counters over a sequence of requests *)







(** * The helpers as they run *)

(** ** The kinds and the values of the scores *)

Lemma min_25_value (x : Runtime.number) :
  Runtime.value (Runtime.min_25 x) == Qmin (Runtime.value x) 25.
Proof.
  unfold Runtime.min_25. destruct (Qle_bool (Runtime.value x) 25) eqn:E.
  - apply Qle_bool_iff in E. rewrite (Q.min_l _ _ E). reflexivity.
  - assert (H : 25 <= Runtime.value x).
    { apply Qlt_le_weak, Qnot_le_lt. intro H. apply Qle_bool_iff in H.
      congruence. }
    rewrite (Q.min_r _ _ H). reflexivity.
Qed.

(** The numbers of the runtime have the values of the formulas. *)
Lemma steps_score_value (d : data) :
  Runtime.value (Runtime.steps_score d) == steps_score d.
Proof.
  unfold Runtime.steps_score, steps_score.
  destruct (0 <? steps d)%Z; [apply min_25_value | reflexivity].
Qed.

Lemma water_score_value (d : data) :
  Runtime.value (Runtime.water_score d) == water_score d.
Proof.
  unfold Runtime.water_score, water_score.
  destruct (0 <? water d)%Z; [apply min_25_value | reflexivity].
Qed.

Lemma sleep_score_value (d : data) :
  Runtime.value (Runtime.sleep_score d) == sleep_score d.
Proof.
  unfold Runtime.sleep_score, sleep_score.
  destruct (Qpositive (sleep d)); [apply min_25_value | reflexivity].
Qed.

Lemma meals_score_value (d : data) :
  Runtime.value (Runtime.meals_score d) == meals_score d.
Proof.
  unfold Runtime.meals_score, meals_score.
  destruct (0 <? meals_count d)%Z; reflexivity.
Qed.

Lemma mood_score_value (d : data) :
  Runtime.value (Runtime.mood_score d) == mood_score d.
Proof.
  unfold Runtime.mood_score, mood_score, Runtime.mood_scores, mood_scores,
    Runtime.get, get.
  destruct ("excellent" =? mood d); [reflexivity|].
  destruct ("good" =? mood d); [reflexivity|].
  destruct ("neutral" =? mood d); [reflexivity|].
  destruct ("bad" =? mood d); [reflexivity|].
  destruct ("terrible" =? mood d); reflexivity.
Qed.

Lemma add_value (x y z : Runtime.number) :
  Runtime.add x y = Runtime.Returned z ->
  Runtime.value z == Runtime.value x + Runtime.value y.
Proof.
  destruct x, y; cbn [Runtime.add]; intro H; try discriminate H;
    injection H as <-; cbn [Runtime.value]; try reflexivity.
  rewrite inject_Z_plus. reflexivity.
Qed.

(** A sum that is returned has the value of the five-term formula. *)
Lemma overall_balance_value (d : data) (b : Runtime.number) :
  Runtime.overall_balance d = Runtime.Returned b ->
  Runtime.value b == overall_balance d.
Proof.
  unfold Runtime.overall_balance, overall_balance, Runtime.bind. intro H.
  destruct (Runtime.add (Runtime.steps_score d) (Runtime.water_score d))
    as [s1|] eqn:E1; [|discriminate H].
  destruct (Runtime.add s1 (Runtime.sleep_score d)) as [s2|] eqn:E2;
    [|discriminate H].
  destruct (Runtime.add s2 (Runtime.meals_score d)) as [s3|] eqn:E3;
    [|discriminate H].
  rewrite (add_value _ _ _ H), (add_value _ _ _ E3), (add_value _ _ _ E2),
    (add_value _ _ _ E1).
  rewrite steps_score_value, water_score_value, sleep_score_value,
    meals_score_value, mood_score_value. reflexivity.
Qed.

(** The kind of each score, by the input that drives it. *)
Lemma steps_score_kind (d : data) :
  ((steps d <= 0)%Z /\ Runtime.steps_score d = Runtime.PyInt 0)
  \/ ((0 < steps d <= 10000)%Z
      /\ Runtime.steps_score d
         = Runtime.PyFloat (inject_Z (steps d) / 10000 * 25))
  \/ ((10000 < steps d)%Z /\ Runtime.steps_score d = Runtime.PyInt 25).
Proof.
  unfold Runtime.steps_score, Runtime.min_25.
  destruct (0 <? steps d)%Z eqn:E.
  - apply Z.ltb_lt in E. cbn [Runtime.value].
    assert (Hs : inject_Z (steps d) / 10000 * 25
                 == 25 + (inject_Z (steps d) - 10000) * (25 # 10000))
      by field.
    destruct (Qle_bool (inject_Z (steps d) / 10000 * 25) 25) eqn:Q.
    + right; left. split; [|reflexivity]. split; [exact E|].
      apply Qle_bool_iff in Q. rewrite Hs in Q.
      assert (Hq : inject_Z (steps d) <= inject_Z 10000)
        by (change (inject_Z 10000) with 10000; lra).
      rewrite <- Zle_Qle in Hq. exact Hq.
    + right; right. split; [|reflexivity].
      destruct (Z_le_gt_dec (steps d) 10000) as [Hle|Hgt]; [|lia].
      exfalso. rewrite Zle_Qle in Hle. change (inject_Z 10000) with 10000 in Hle.
      assert (Q' : inject_Z (steps d) / 10000 * 25 <= 25) by (rewrite Hs; lra).
      apply Qle_bool_iff in Q'. congruence.
  - apply Z.ltb_ge in E. left. split; [exact E | reflexivity].
Qed.

Lemma water_score_kind (d : data) :
  ((water d <= 0)%Z /\ Runtime.water_score d = Runtime.PyInt 0)
  \/ ((0 < water d <= 2000)%Z
      /\ Runtime.water_score d
         = Runtime.PyFloat (inject_Z (water d) / 2000 * 25))
  \/ ((2000 < water d)%Z /\ Runtime.water_score d = Runtime.PyInt 25).
Proof.
  unfold Runtime.water_score, Runtime.min_25.
  destruct (0 <? water d)%Z eqn:E.
  - apply Z.ltb_lt in E. cbn [Runtime.value].
    assert (Hs : inject_Z (water d) / 2000 * 25
                 == 25 + (inject_Z (water d) - 2000) * (25 # 2000))
      by field.
    destruct (Qle_bool (inject_Z (water d) / 2000 * 25) 25) eqn:Q.
    + right; left. split; [|reflexivity]. split; [exact E|].
      apply Qle_bool_iff in Q. rewrite Hs in Q.
      assert (Hq : inject_Z (water d) <= inject_Z 2000)
        by (change (inject_Z 2000) with 2000; lra).
      rewrite <- Zle_Qle in Hq. exact Hq.
    + right; right. split; [|reflexivity].
      destruct (Z_le_gt_dec (water d) 2000) as [Hle|Hgt]; [|lia].
      exfalso. rewrite Zle_Qle in Hle. change (inject_Z 2000) with 2000 in Hle.
      assert (Q' : inject_Z (water d) / 2000 * 25 <= 25) by (rewrite Hs; lra).
      apply Qle_bool_iff in Q'. congruence.
  - apply Z.ltb_ge in E. left. split; [exact E | reflexivity].
Qed.

Lemma sleep_score_kind (d : data) :
  (sleep d <= 0 /\ Runtime.sleep_score d = Runtime.PyInt 0)
  \/ ((0 < sleep d /\ sleep d <= 8)
      /\ Runtime.sleep_score d = Runtime.PyDecimal (sleep d / 8 * 25))
  \/ (8 < sleep d /\ Runtime.sleep_score d = Runtime.PyInt 25).
Proof.
  unfold Runtime.sleep_score, Runtime.min_25.
  destruct (Qpositive (sleep d)) eqn:E.
  - apply Qpositive_spec in E. cbn [Runtime.value].
    assert (Hs : sleep d / 8 * 25 == 25 + (sleep d - 8) * (25 # 8)) by field.
    destruct (Qle_bool (sleep d / 8 * 25) 25) eqn:Q.
    + right; left. split; [|reflexivity]. split; [exact E|].
      apply Qle_bool_iff in Q. rewrite Hs in Q. lra.
    + right; right. split; [|reflexivity].
      destruct (Qlt_le_dec 8 (sleep d)) as [Hgt|Hle]; [exact Hgt|].
      exfalso.
      assert (Q' : sleep d / 8 * 25 <= 25) by (rewrite Hs; lra).
      apply Qle_bool_iff in Q'. congruence.
  - left. split; [|reflexivity].
    apply Qnot_lt_le. intro H. apply Qpositive_spec in H. congruence.
Qed.

Lemma meals_score_kind (d : data) :
  ((meals_count d <= 0)%Z /\ Runtime.meals_score d = Runtime.PyInt 0)
  \/ ((0 < meals_count d)%Z
      /\ Runtime.meals_score d
         = Runtime.PyFloat (inject_Z (meals_count d) / 3 * 25)).
Proof.
  unfold Runtime.meals_score. destruct (0 <? meals_count d)%Z eqn:E.
  - right. apply Z.ltb_lt in E. split; [exact E | reflexivity].
  - left. apply Z.ltb_ge in E. split; [exact E | reflexivity].
Qed.

(** The sum raises exactly when the sleep score is a [Decimal] and one of
    the other scores is a [float]. *)
Lemma overall_balance_raises (d : data) :
  (forall b, Runtime.overall_balance d <> Runtime.Returned b)
  <-> (0 < sleep d /\ sleep d <= 8)
      /\ ((0 < steps d <= 10000)%Z \/ (0 < water d <= 2000)%Z
          \/ (0 < meals_count d)%Z).
Proof.
  unfold Runtime.overall_balance, Runtime.mood_score.
  destruct (steps_score_kind d) as [[Hs ->]|[[Hs ->]|[Hs ->]]];
  destruct (water_score_kind d) as [[Hw ->]|[[Hw ->]|[Hw ->]]];
  destruct (sleep_score_kind d) as [[Hr ->]|[[Hr ->]|[Hr ->]]];
  destruct (meals_score_kind d) as [[Hm ->]|[Hm ->]];
  cbn; split;
  try (intro H; exfalso; eapply H; reflexivity);
  try (intros [[H1 H2] H3]; exfalso; lra);
  try (intros [[H1 H2] [H3|[H3|H3]]]; exfalso; lia);
  try (intros _ b Hb; discriminate Hb);
  try (intros _; split; [exact Hr | tauto]).
Qed.

(** ** The balance *)

Lemma overall_balance_returns (d : data) :
  sleep d <= 0 \/ 8 < sleep d ->
  exists b, Runtime.overall_balance d = Runtime.Returned b.
Proof.
  intro H.
  destruct (Runtime.overall_balance d) as [b|e] eqn:E; [exists b; reflexivity|].
  exfalso.
  assert (Hr : forall b, Runtime.overall_balance d <> Runtime.Returned b)
    by (intros b Hb; congruence).
  apply overall_balance_raises in Hr. destruct Hr as [[H1 H2] _].
  destruct H as [H|H]; lra.
Qed.

(** C1, as the code has it: whenever the sum of line 775 returns a
    balance, it is the sum of FIVE scores, the four sub-scores that are
    stored (activity, nutrition, recovery, mental) and the water score,
    and lies in [0, 125]; it returns one at least on every day with no
    sleep or with more than eight hours of sleep.  Each of the five scores
    lies in [0, 25]. *)
Theorem balance_five_scores_C1 (d : data) :
  (forall s, Runtime.compute_scores d = Runtime.Returned s ->
     Runtime.value (Runtime.balance s)
     == Runtime.value (Runtime.activity s)
        + Runtime.value (Runtime.nutrition s)
        + Runtime.value (Runtime.recovery s)
        + Runtime.value (Runtime.mental s)
        + Runtime.value (Runtime.water_score d)
     /\ 0 <= Runtime.value (Runtime.balance s) <= 125)
  /\ (sleep d <= 0 \/ 8 < sleep d ->
      exists s, Runtime.compute_scores d = Runtime.Returned s)
  /\ 0 <= Runtime.value (Runtime.steps_score d) <= 25
  /\ 0 <= Runtime.value (Runtime.meals_score d) <= 25
  /\ 0 <= Runtime.value (Runtime.sleep_score d) <= 25
  /\ 0 <= Runtime.value (Runtime.mood_score d) <= 25
  /\ 0 <= Runtime.value (Runtime.water_score d) <= 25.
Proof.
  pose proof (steps_score_bounds d) as Hs.
  pose proof (water_score_bounds d) as Hw.
  pose proof (sleep_score_bounds d) as Hr.
  pose proof (meals_score_bounds d) as Hn.
  pose proof (mood_score_bounds d) as Hm.
  rewrite <- steps_score_value in Hs. rewrite <- water_score_value in Hw.
  rewrite <- sleep_score_value in Hr. rewrite <- meals_score_value in Hn.
  rewrite <- mood_score_value in Hm.
  split; [|split; [|tauto]].
  - intros s Hc. unfold Runtime.compute_scores, Runtime.bind in Hc.
    destruct (Runtime.overall_balance d) as [b|] eqn:E; [|discriminate Hc].
    injection Hc as <-.
    cbn [Runtime.balance Runtime.activity Runtime.nutrition Runtime.recovery
         Runtime.mental].
    pose proof (overall_balance_value d b E) as Hb.
    unfold overall_balance in Hb.
    rewrite <- steps_score_value, <- water_score_value, <- sleep_score_value,
      <- meals_score_value, <- mood_score_value in Hb.
    split; lra.
  - intro H. destruct (overall_balance_returns d H) as [b Hb].
    unfold Runtime.compute_scores. rewrite Hb. cbn [Runtime.bind].
    eexists. reflexivity.
Qed.

(** C1 as stated fails: on a day at every target with nine hours of sleep
    the code returns the balance 125, which is neither the sum of the four
    sub-scores (100) nor within [0, 100]. *)
Lemma balance_four_scores_C1_fails :
  exists s,
    Runtime.compute_scores long_sleep_day = Runtime.Returned s
    /\ Runtime.value (Runtime.balance s) == 125
    /\ ~ (Runtime.value (Runtime.balance s)
          == Runtime.value (Runtime.activity s)
             + Runtime.value (Runtime.nutrition s)
             + Runtime.value (Runtime.recovery s)
             + Runtime.value (Runtime.mental s))
    /\ ~ (Runtime.value (Runtime.balance s) <= 100).
Proof.
  eexists. split; [vm_compute; reflexivity|].
  vm_compute. split; [reflexivity|].
  split; intro H; [discriminate H | apply H; reflexivity].
Qed.

(** C2: on the scenario the four sub-scores have the stated values, but
    the sum of line 775 adds the float 25.0 of steps and water to the
    Decimal 18.75 of sleep and raises [TypeError]: no balance is
    produced, and a request with these facts for a new day of a registered
    user is answered 500 and leaves the store as it was. *)
Theorem scenario_raises_C2 :
  Runtime.value (Runtime.steps_score scenario) == 12.5
  /\ 16.6665 <= Runtime.value (Runtime.meals_score scenario) <= 16.6675
  /\ Runtime.value (Runtime.sleep_score scenario) == 18.75
  /\ Runtime.value (Runtime.mood_score scenario) == 20
  /\ Runtime.overall_balance scenario = Runtime.Raised Runtime.TypeError
  /\ Runtime.compute_scores scenario = Runtime.Raised Runtime.TypeError
  /\ Runtime.update_daily_data nearest_hundredth scenario_request 100
       one_user
     = (HTTPException 500, one_user).
Proof.
  split; [vm_compute; reflexivity|].
  split; [vm_compute; split; discriminate|].
  split; [vm_compute; reflexivity|].
  split; [vm_compute; reflexivity|].
  split; [reflexivity|]. split; [reflexivity|]. vm_compute. reflexivity.
Qed.

(** ** Water *)

Lemma compute_scores_returned (d : data) (s : Runtime.scores) :
  Runtime.compute_scores d = Runtime.Returned s ->
  Runtime.activity s = Runtime.steps_score d
  /\ Runtime.nutrition s = Runtime.meals_score d
  /\ Runtime.recovery s = Runtime.sleep_score d
  /\ Runtime.mental s = Runtime.mood_score d
  /\ Runtime.overall_balance d = Runtime.Returned (Runtime.balance s).
Proof.
  unfold Runtime.compute_scores, Runtime.bind. intro H.
  destruct (Runtime.overall_balance d) as [b|]; [|discriminate H].
  injection H as <-. repeat split.
Qed.

(** C3, as the code has it: for two days that agree on everything but
    water and on which the scores are computed, the four sub-scores are
    identical and the balances differ by exactly the difference of the
    water scores; the scores of both days are computed at least when
    there is no sleep or more than eight hours of it. *)
Theorem water_only_moves_balance_C3 (d1 d2 : data) :
  steps d1 = steps d2 -> sleep d1 = sleep d2 ->
  breakfast d1 = breakfast d2 -> lunch d1 = lunch d2 ->
  dinner d1 = dinner d2 -> mood d1 = mood d2 ->
  (forall s1 s2,
     Runtime.compute_scores d1 = Runtime.Returned s1 ->
     Runtime.compute_scores d2 = Runtime.Returned s2 ->
     Runtime.activity s1 = Runtime.activity s2
     /\ Runtime.nutrition s1 = Runtime.nutrition s2
     /\ Runtime.recovery s1 = Runtime.recovery s2
     /\ Runtime.mental s1 = Runtime.mental s2
     /\ Runtime.value (Runtime.balance s1)
        - Runtime.value (Runtime.water_score d1)
        == Runtime.value (Runtime.balance s2)
           - Runtime.value (Runtime.water_score d2))
  /\ (sleep d1 <= 0 \/ 8 < sleep d1 ->
      exists s1 s2,
        Runtime.compute_scores d1 = Runtime.Returned s1
        /\ Runtime.compute_scores d2 = Runtime.Returned s2).
Proof.
  intros Hs Hsl Hb Hl Hd Hm. split.
  - intros s1 s2 H1 H2.
    destruct (compute_scores_returned _ _ H1) as [A1 [N1 [R1 [M1 B1]]]].
    destruct (compute_scores_returned _ _ H2) as [A2 [N2 [R2 [M2 B2]]]].
    assert (E1 : Runtime.steps_score d1 = Runtime.steps_score d2)
      by (unfold Runtime.steps_score; rewrite Hs; reflexivity).
    assert (E2 : Runtime.meals_score d1 = Runtime.meals_score d2)
      by (unfold Runtime.meals_score, meals_count; rewrite Hb, Hl, Hd;
          reflexivity).
    assert (E3 : Runtime.sleep_score d1 = Runtime.sleep_score d2)
      by (unfold Runtime.sleep_score; rewrite Hsl; reflexivity).
    assert (E4 : Runtime.mood_score d1 = Runtime.mood_score d2)
      by (unfold Runtime.mood_score; rewrite Hm; reflexivity).
    rewrite A1, A2, N1, N2, R1, R2, M1, M2.
    repeat split; try assumption.
    rewrite (overall_balance_value _ _ B1), (overall_balance_value _ _ B2).
    unfold overall_balance.
    rewrite <- !steps_score_value, <- !water_score_value,
      <- !sleep_score_value, <- !meals_score_value, <- !mood_score_value.
    rewrite E1, E2, E3, E4. ring.
  - intro H.
    assert (H' : sleep d2 <= 0 \/ 8 < sleep d2) by (rewrite <- Hsl; exact H).
    destruct (overall_balance_returns d1 H) as [b1 Hb1].
    destruct (overall_balance_returns d2 H') as [b2 Hb2].
    unfold Runtime.compute_scores. rewrite Hb1, Hb2. cbn [Runtime.bind].
    eexists. eexists. split; reflexivity.
Qed.

Lemma water_only_moves_balance_C3_witness :
  (forall s1 s2,
     Runtime.compute_scores dry_day = Runtime.Returned s1 ->
     Runtime.compute_scores wet_day = Runtime.Returned s2 ->
     Runtime.activity s1 = Runtime.activity s2
     /\ Runtime.nutrition s1 = Runtime.nutrition s2
     /\ Runtime.recovery s1 = Runtime.recovery s2
     /\ Runtime.mental s1 = Runtime.mental s2
     /\ Runtime.value (Runtime.balance s1)
        - Runtime.value (Runtime.water_score dry_day)
        == Runtime.value (Runtime.balance s2)
           - Runtime.value (Runtime.water_score wet_day))
  /\ (sleep dry_day <= 0 \/ 8 < sleep dry_day ->
      exists s1 s2,
        Runtime.compute_scores dry_day = Runtime.Returned s1
        /\ Runtime.compute_scores wet_day = Runtime.Returned s2).
Proof.
  apply (water_only_moves_balance_C3 dry_day wet_day); reflexivity.
Defined.

(** C3 as stated fails: the two days below differ in water only, the code
    computes the scores of both, and the balances are 20 and 32.5. *)
Lemma water_influences_balance_C3_fails :
  steps dry_day = steps wet_day /\ sleep dry_day = sleep wet_day
  /\ breakfast dry_day = breakfast wet_day
  /\ lunch dry_day = lunch wet_day /\ dinner dry_day = dinner wet_day
  /\ mood dry_day = mood wet_day
  /\ exists s1 s2,
       Runtime.compute_scores dry_day = Runtime.Returned s1
       /\ Runtime.compute_scores wet_day = Runtime.Returned s2
       /\ Runtime.value (Runtime.balance s1) == 20
       /\ Runtime.value (Runtime.balance s2) == 32.5
       /\ ~ (Runtime.value (Runtime.balance s1)
             == Runtime.value (Runtime.balance s2)).
Proof.
  repeat split. eexists. eexists.
  split; [vm_compute; reflexivity|]. split; [vm_compute; reflexivity|].
  vm_compute. repeat split. discriminate.
Qed.

(** ** The energy level *)

(** C4, as the code has it: the energy level is computed from the stored
    balances of the user's records dated on or after the written date
    minus seven days (no upper bound on the date; a day without a record
    contributes nothing).  It is 50 when there is no such record or when
    the mean of those balances is zero, and that mean otherwise; it lies
    in [0, 125] when those balances do; and when the scores of the day are
    computed, the helper writes it, as a float, to the user's profile. *)
Theorem energy_level_mean_C4 (float_to_numeric : Q -> Q)
    (user_id date_str : Z) (rows : list daily_row) :
  let w := window_balances user_id date_str rows in
  let n := inject_Z (Z.of_nat (List.length w)) in
  let e := new_energy (avg_energy user_id date_str rows) in
  (forall r, In r (filter (in_window user_id date_str) rows)
             <-> In r rows /\ dd_user_id r = user_id
                 /\ (date_str - 7 <= dd_date r)%Z)
  /\ (w = [] -> e = 50)
  /\ (w <> [] -> ~ Qsum w / n == 0 -> e = Qsum w / n)
  /\ (w <> [] -> Qsum w / n == 0 -> e = 50)
  /\ ((forall q, In q w -> 0 <= q <= 125) -> 0 <= e <= 125)
  /\ (forall db d s,
        fetch_data user_id date_str db = Some d ->
        Runtime.compute_scores d = Runtime.Returned s ->
        rows = Runtime.store_scores float_to_numeric user_id date_str s
                 (daily_data db) ->
        exists db',
          Runtime.update_energy_level float_to_numeric user_id date_str db
          = Runtime.Returned db'
          /\ daily_data db' = rows
          /\ users db'
             = set_energy_level user_id (float_to_numeric e) (users db)).
Proof.
  intros w n e.
  split; [intro r; apply in_window_spec|].
  split; [intro Hw; subst e; unfold avg_energy; fold w; rewrite Hw;
          reflexivity|].
  split; [|split; [|split]].
  - intros Hne H0. subst e n. unfold avg_energy. fold w.
    destruct w as [|x l]; [contradiction|].
    cbn [AVG new_energy]. rewrite (truthy_true _ H0). reflexivity.
  - intros Hne H0. subst e n. unfold avg_energy. fold w.
    destruct w as [|x l]; [contradiction|].
    cbn [AVG new_energy]. rewrite (truthy_false _ H0). reflexivity.
  - intro Hb. subst e. unfold avg_energy. fold w.
    destruct (AVG w) as [a|] eqn:Ea; cbn [new_energy].
    + destruct (truthy a); [|split; discriminate].
      apply (AVG_bounds 125 w a Hb Ea).
    + split; discriminate.
  - intros db d s Hd Hs ->. unfold Runtime.update_energy_level.
    rewrite Hd, Hs. cbn [Runtime.bind]. eexists.
    split; [reflexivity|]. split; reflexivity.
Qed.

(** C4 as stated fails.  Both requests are answered with success.  After
    day 93 the energy level is 125, above 100.  After day 100 it is 70,
    the mean of days 93 and 100, while the mean over the seven days ending
    at day 100 is 15. *)
Lemma energy_window_C4_fails :
  fst (Runtime.update_daily_data nearest_hundredth long_sleep_request 93
         one_user) = Success
  /\ fst (Runtime.update_daily_data nearest_hundredth nothing_request 100
            store_after_93) = Success
  /\ Forall2 Qeq (profile_energy 1 store_after_93) [125]
  /\ ~ Forall2 Qle (profile_energy 1 store_after_93) [100]
  /\ Forall2 Qeq (profile_energy 1 store_after_100) [70]
  /\ spec_energy_level 1 100 (daily_data store_after_100) == 15
  /\ ~ Forall2 Qeq (profile_energy 1 store_after_100)
         [spec_energy_level 1 100 (daily_data store_after_100)].
Proof.
  split; [vm_compute; reflexivity|]. split; [vm_compute; reflexivity|].
  split; [vm_compute; repeat constructor|].
  split.
  { intro H. vm_compute in H. inversion H as [|? ? ? ? Hq _]; subst.
    apply Hq. reflexivity. }
  split; [vm_compute; repeat constructor|].
  split; [vm_compute; reflexivity|].
  intro H. vm_compute in H. inversion H as [|? ? ? ? Hq _]; subst.
  discriminate Hq.
Qed.

(** ** Negative inputs *)

Lemma insert_row_columns (f : Q -> Q) (req : Runtime.DailyDataCreate)
    (today : Z) (w : daily_row) :
  Runtime.insert_row f req today = Runtime.Returned w ->
  dd_user_id w = Runtime.rq_user_id req /\ dd_date w = today
  /\ dd_steps w = Some (COALESCE (Runtime.rq_steps req) 0%Z).
Proof.
  unfold Runtime.insert_row. intro H.
  destruct (negb (Runtime.int4 _ && Runtime.int4 _)); [discriminate H|].
  destruct (negb (Runtime.fits_5_2 _)); [discriminate H|].
  destruct (negb (Runtime.mood_ok _)); [discriminate H|].
  injection H as <-. repeat split.
Qed.

(** The day the helper reads after the insert of a new day. *)
Lemma filter_inserted (user_id today : Z) (rows : list daily_row)
    (w : daily_row) :
  filter (is_day user_id today) rows = [] ->
  dd_user_id w = user_id -> dd_date w = today ->
  filter (is_day user_id today) (rows ++ [w]) = [w].
Proof.
  intros E Hu Hd. rewrite filter_app, E. cbn [filter app].
  unfold is_day. rewrite Hu, Hd, !Z.eqb_refl. reflexivity.
Qed.

(** What [POST /daily] does on a new day of a registered user, when the
    row can be inserted and its scores are computed. *)
Lemma update_daily_data_new_day (f : Q -> Q) (req : Runtime.DailyDataCreate)
    (date_today : Z) (db : database) (w : daily_row) (s : Runtime.scores) :
  let today := COALESCE (Runtime.rq_date req) date_today in
  existsb (fun u => (u_id u =? Runtime.rq_user_id req)%Z) (users db) = true ->
  filter (is_day (Runtime.rq_user_id req) today) (daily_data db) = [] ->
  Runtime.insert_row f req today = Runtime.Returned w ->
  Runtime.compute_scores (select_data w) = Runtime.Returned s ->
  Runtime.update_daily_data f req date_today db
  = (Success,
     {| users :=
          set_energy_level (Runtime.rq_user_id req)
            (f (new_energy
                  (avg_energy (Runtime.rq_user_id req) today
                     (Runtime.store_scores f (Runtime.rq_user_id req) today s
                        (daily_data db ++ [w])))))
            (users db);
        daily_data :=
          Runtime.store_scores f (Runtime.rq_user_id req) today s
            (daily_data db ++ [w]);
        user_habits := user_habits db;
        habit_completions := habit_completions db |}).
Proof.
  intros today Hu He Hw Hs.
  destruct (insert_row_columns f req today w Hw) as [Hid [Hdate _]].
  unfold Runtime.update_daily_data. rewrite Hu. fold today.
  unfold Runtime.write_day. rewrite He. cbn [fetchone]. rewrite Hw.
  cbn [Runtime.bind]. unfold Runtime.update_energy_level, fetch_data.
  cbn [daily_data users user_habits habit_completions].
  rewrite (filter_inserted _ _ _ _ He Hid Hdate). cbn [map fetchone].
  rewrite Hs. cbn [Runtime.bind]. reflexivity.
Qed.

(** C9, as the code has it: a negative step count is not rejected.  The
    score computation gives it the activity score 0 of kind [int]; and a
    request that carries it for a new day of a registered user, whose row
    can be inserted and whose scores are computed, is answered with
    success and stored with the activity score 0. *)
Theorem negative_steps_defaulted_C9 (float_to_numeric : Q -> Q)
    (req : Runtime.DailyDataCreate) (date_today n : Z) (db : database)
    (w : daily_row) (s : Runtime.scores) :
  let today := COALESCE (Runtime.rq_date req) date_today in
  existsb (fun u => (u_id u =? Runtime.rq_user_id req)%Z) (users db) = true ->
  filter (is_day (Runtime.rq_user_id req) today) (daily_data db) = [] ->
  Runtime.rq_steps req = Some n -> (n < 0)%Z ->
  Runtime.insert_row float_to_numeric req today = Runtime.Returned w ->
  Runtime.compute_scores (select_data w) = Runtime.Returned s ->
  Runtime.activity s = Runtime.PyInt 0
  /\ fst (Runtime.update_daily_data float_to_numeric req date_today db)
     = Success
  /\ forall r,
       In r (daily_data
               (snd (Runtime.update_daily_data float_to_numeric req
                       date_today db))) ->
       is_day (Runtime.rq_user_id req) today r = true ->
       dd_steps r = Some n /\ activity_score r = 0.
Proof.
  intros today Hu He Hn Hneg Hw Hs.
  destruct (insert_row_columns _ req today w Hw) as [Hid [Hdate Hsteps]].
  rewrite Hn in Hsteps. cbn [COALESCE] in Hsteps.
  assert (Ha : Runtime.activity s = Runtime.PyInt 0).
  { destruct (compute_scores_returned _ _ Hs) as [-> _].
    unfold Runtime.steps_score, select_data; cbn [steps].
    rewrite Hsteps. cbn [COALESCE].
    destruct (0 <? n)%Z eqn:E; [apply Z.ltb_lt in E; lia | reflexivity]. }
  split; [exact Ha|].
  rewrite (update_daily_data_new_day _ req date_today db w s Hu He Hw Hs).
  cbn [fst snd daily_data]. split; [reflexivity|].
  fold today. intros r Hin Hday. unfold Runtime.store_scores in Hin.
  apply in_map_iff in Hin. destruct Hin as [r0 [Hr Hin]].
  destruct (is_day (Runtime.rq_user_id req) today r0) eqn:E0;
    [|subst r; congruence].
  assert (Hw0 : In r0 (filter (is_day (Runtime.rq_user_id req) today)
                         (daily_data db ++ [w])))
    by (apply filter_In; split; assumption).
  rewrite (filter_inserted _ _ _ _ He Hid Hdate) in Hw0.
  destruct Hw0 as [<-|[]]. subst r.
  cbn [Runtime.set_scores dd_steps activity_score].
  rewrite Ha. split; [exact Hsteps | reflexivity].
Qed.

Lemma negative_steps_defaulted_C9_witness :
  exists s,
    Runtime.activity s = Runtime.PyInt 0
    /\ fst (Runtime.update_daily_data nearest_hundredth
              negative_steps_request 100 one_user) = Success
    /\ forall r,
         In r (daily_data
                 (snd (Runtime.update_daily_data nearest_hundredth
                         negative_steps_request 100 one_user))) ->
         is_day 1 100 r = true ->
         dd_steps r = Some (-5)%Z /\ activity_score r = 0.
Proof.
  eexists.
  eapply (negative_steps_defaulted_C9 nearest_hundredth negative_steps_request
            100 (-5) one_user);
    [reflexivity | reflexivity | reflexivity | lia
     | vm_compute; reflexivity | vm_compute; reflexivity].
Defined.

(** C9 as stated fails: the request is answered with the success message,
    not with an error, and the day is stored with its negative step count,
    the activity score 0 and the balance 15 of its mood. *)
Lemma negative_steps_rejected_C9_fails :
  fst (Runtime.update_daily_data nearest_hundredth negative_steps_request
         100 one_user) = Success
  /\ (forall status_code,
        fst (Runtime.update_daily_data nearest_hundredth
               negative_steps_request 100 one_user)
        <> HTTPException status_code)
  /\ map (fun r => (dd_steps r, activity_score r, dd_overall_balance r))
       (daily_data
          (snd (Runtime.update_daily_data nearest_hundredth
                  negative_steps_request 100 one_user)))
     = [ (Some (-5)%Z, 0, 15) ].
Proof.
  split; [reflexivity|]. split; [intros c H; discriminate H|]. reflexivity.
Qed.

(** ** The completion reward *)

Lemma coins_fit_spec (user_id : Z) (rows : list user_row) :
  Runtime.coins_fit user_id rows = true
  <-> forall u, In u rows -> u_id u = user_id ->
                (sync_coins u <= 2147483645)%Z.
Proof.
  unfold Runtime.coins_fit. rewrite forallb_forall. split.
  - intros H u Hin Hid. specialize (H u Hin).
    apply Z.eqb_eq in Hid. rewrite Hid in H. cbn [negb orb] in H.
    apply Z.leb_le in H. lia.
  - intros H u Hin. destruct (u_id u =? user_id)%Z eqn:E; [|reflexivity].
    cbn [negb orb]. apply Z.leb_le. apply Z.eqb_eq in E.
    specialize (H u Hin E). lia.
Qed.

(** C8, as the code has it: when the coin balance of the user is at most
    2147483645, the reward succeeds, adds exactly 2 coins and sets the
    energy level to the smaller of energy plus 3 and 100, and changes
    nothing else; applied once more from a balance of at most 2147483643
    it succeeds again, 4 coins in all.  Energy 99 becomes 100. *)
Theorem completion_reward_C8 (user_id habit_id : Z) (db : database) :
  (forall u, In u (users db) -> u_id u = user_id ->
             (sync_coins u <= 2147483645)%Z) ->
  exists db1,
    Runtime.award_for_habit_completion user_id habit_id db
    = Runtime.Returned db1
    /\ Forall2 (fun u u' =>
                  u_id u' = u_id u
                  /\ if (u_id u =? user_id)%Z
                     then sync_coins u' = (sync_coins u + 2)%Z
                          /\ energy_level u' = Qmin (energy_level u + 3) 100
                          /\ energy_level u' <= 100
                     else u' = u)
         (users db) (users db1)
    /\ daily_data db1 = daily_data db
    /\ user_habits db1 = user_habits db
    /\ habit_completions db1 = habit_completions db
    /\ ((forall u, In u (users db) -> u_id u = user_id ->
                   (sync_coins u <= 2147483643)%Z) ->
        exists db2,
          Runtime.award_for_habit_completion user_id habit_id db1
          = Runtime.Returned db2
          /\ Forall2 (fun u u'' =>
                        if (u_id u =? user_id)%Z
                        then sync_coins u'' = (sync_coins u + 4)%Z
                        else u'' = u)
               (users db) (users db2))
    /\ exists full,
         Runtime.award_for_habit_completion 1 1 nearly_full
         = Runtime.Returned full
         /\ Forall2 (fun u' e => sync_coins u' = 9%Z /\ energy_level u' == e)
              (users full) [100].
Proof.
  intro Hfit. unfold Runtime.award_for_habit_completion at 1.
  rewrite (proj2 (coins_fit_spec user_id (users db)) Hfit).
  eexists. split; [reflexivity|].
  cbn [users daily_data user_habits habit_completions].
  split; [|split; [reflexivity|split; [reflexivity|split; [reflexivity|split]]]].
  - unfold update_user. rewrite map_map. apply Forall2_map_self. intro u.
    destruct (u_id u =? user_id)%Z eqn:E.
    + cbn [add_coins u_id]. rewrite E.
      cbn [add_energy add_coins u_id sync_coins energy_level].
      repeat split. apply Q.le_min_r.
    + rewrite E. split; reflexivity.
  - intro Hfit2. unfold Runtime.award_for_habit_completion.
    cbn [users daily_data user_habits habit_completions].
    assert (Hc : Runtime.coins_fit user_id
                   (update_user user_id add_energy
                      (update_user user_id add_coins (users db))) = true).
    { apply coins_fit_spec. intros u Hin Hid. unfold update_user in Hin.
      rewrite map_map in Hin. apply in_map_iff in Hin.
      destruct Hin as [u0 [Hu Hin]].
      destruct (u_id u0 =? user_id)%Z eqn:E.
      - cbn [add_coins u_id] in Hu. rewrite E in Hu. subst u.
        cbn [add_energy add_coins sync_coins u_id] in *.
        specialize (Hfit2 u0 Hin Hid). lia.
      - rewrite E in Hu. subst u. apply Z.eqb_neq in E. contradiction. }
    rewrite Hc. eexists. split; [reflexivity|]. cbn [users].
    unfold update_user. rewrite !map_map. apply Forall2_map_self. intro u.
    destruct (u_id u =? user_id)%Z eqn:E.
    + repeat (cbn [add_coins add_energy u_id]; rewrite ?E).
      cbn [add_energy add_coins sync_coins]. lia.
    + rewrite !E. reflexivity.
  - eexists. split; [reflexivity|].
    constructor; [|constructor]. split; reflexivity.
Qed.

Lemma completion_reward_C8_witness :
  exists db1,
    Runtime.award_for_habit_completion 1 1 nearly_full = Runtime.Returned db1.
Proof.
  destruct (completion_reward_C8 1 1 nearly_full) as [db1 [H1 _]].
  - intros u [<-|[]] _. cbn. lia.
  - exists db1. exact H1.
Defined.

(** C8 as stated fails: from a balance of 2147483646 coins the reward
    does not succeed, the [INTEGER] column cannot hold the sum, and nothing
    is written. *)
Lemma completion_reward_C8_fails :
  Forall (fun u => sync_coins u = 2147483646%Z) (users rich_user)
  /\ Runtime.award_for_habit_completion 1 1 rich_user
     = Runtime.Raised Runtime.DataError
  /\ forall db1,
       Runtime.award_for_habit_completion 1 1 rich_user
       <> Runtime.Returned db1.
Proof.
  split; [repeat constructor|]. split; [reflexivity|].
  intros db1 H. discriminate H.
Qed.

(** ** How the scores move with the inputs *)

(** Logging more steps, more water, more sleep or more meals, with the
    same mood, lowers none of the four scores they drive; and when the
    balance of both days is computed, it does not lower the balance. *)
Theorem scores_monotone (d1 d2 : data) :
  (steps d1 <= steps d2)%Z -> (water d1 <= water d2)%Z ->
  sleep d1 <= sleep d2 -> (meals_count d1 <= meals_count d2)%Z ->
  mood d1 = mood d2 ->
  Runtime.value (Runtime.steps_score d1)
  <= Runtime.value (Runtime.steps_score d2)
  /\ Runtime.value (Runtime.water_score d1)
     <= Runtime.value (Runtime.water_score d2)
  /\ Runtime.value (Runtime.sleep_score d1)
     <= Runtime.value (Runtime.sleep_score d2)
  /\ Runtime.value (Runtime.meals_score d1)
     <= Runtime.value (Runtime.meals_score d2)
  /\ forall b1 b2,
       Runtime.overall_balance d1 = Runtime.Returned b1 ->
       Runtime.overall_balance d2 = Runtime.Returned b2 ->
       Runtime.value b1 <= Runtime.value b2.
Proof.
  intros Hs Hw Hsl Hm Hmood.
  assert (E1 : steps_score d1 <= steps_score d2).
  { unfold steps_score. apply ramp_mono;
      [reflexivity | rewrite <- Zle_Qle; exact Hs
       | apply Zpositive_spec | apply Zpositive_spec]. }
  assert (E2 : water_score d1 <= water_score d2).
  { unfold water_score. apply ramp_mono;
      [reflexivity | rewrite <- Zle_Qle; exact Hw
       | apply Zpositive_spec | apply Zpositive_spec]. }
  assert (E3 : sleep_score d1 <= sleep_score d2).
  { unfold sleep_score. apply ramp_mono;
      [reflexivity | exact Hsl | apply Qpositive_spec | apply Qpositive_spec]. }
  assert (E4 : meals_score d1 <= meals_score d2)
    by (apply meals_score_mono; exact Hm).
  assert (E5 : mood_score d1 = mood_score d2)
    by (unfold mood_score; rewrite Hmood; reflexivity).
  rewrite !steps_score_value, !water_score_value, !sleep_score_value,
    !meals_score_value.
  repeat split; try assumption.
  intros b1 b2 H1 H2.
  rewrite (overall_balance_value _ _ H1), (overall_balance_value _ _ H2).
  unfold overall_balance. rewrite E5. lra.
Qed.

Lemma scores_monotone_witness :
  Runtime.value (Runtime.steps_score dry_day)
  <= Runtime.value (Runtime.steps_score wet_day)
  /\ Runtime.value (Runtime.water_score dry_day)
     <= Runtime.value (Runtime.water_score wet_day)
  /\ Runtime.value (Runtime.sleep_score dry_day)
     <= Runtime.value (Runtime.sleep_score wet_day)
  /\ Runtime.value (Runtime.meals_score dry_day)
     <= Runtime.value (Runtime.meals_score wet_day)
  /\ forall b1 b2,
       Runtime.overall_balance dry_day = Runtime.Returned b1 ->
       Runtime.overall_balance wet_day = Runtime.Returned b2 ->
       Runtime.value b1 <= Runtime.value b2.
Proof.
  apply (scores_monotone dry_day wet_day);
    [cbn; lia | cbn; lia | cbn; discriminate | cbn; lia | reflexivity].
Defined.

Lemma overall_balance_full (d : data) :
  overall_balance d == 125
  <-> (10000 <= steps d)%Z /\ (2000 <= water d)%Z /\ 8 <= sleep d
      /\ breakfast d = true /\ lunch d = true /\ dinner d = true
      /\ mood d = "excellent".
Proof.
  pose proof (steps_score_bounds d) as Hs.
  pose proof (water_score_bounds d) as Hw.
  pose proof (sleep_score_bounds d) as Hr.
  pose proof (meals_score_bounds d) as Hn.
  pose proof (mood_score_bounds d) as Hm.
  assert (Fs : steps_score d == 25 <-> (10000 <= steps d)%Z).
  { unfold steps_score.
    rewrite (ramp_full _ _ 10000 eq_refl (Zpositive_spec (steps d))).
    change 10000 with (inject_Z 10000). rewrite <- Zle_Qle. tauto. }
  assert (Fw : water_score d == 25 <-> (2000 <= water d)%Z).
  { unfold water_score.
    rewrite (ramp_full _ _ 2000 eq_refl (Zpositive_spec (water d))).
    change 2000 with (inject_Z 2000). rewrite <- Zle_Qle. tauto. }
  assert (Fr : sleep_score d == 25 <-> 8 <= sleep d).
  { unfold sleep_score.
    apply (ramp_full _ _ 8 eq_refl (Qpositive_spec (sleep d))). }
  pose proof (meals_score_full d) as Fn.
  pose proof (mood_score_full d) as Fm.
  unfold overall_balance. split.
  - intro H.
    assert (steps_score d == 25) by lra.
    assert (water_score d == 25) by lra.
    assert (sleep_score d == 25) by lra.
    assert (meals_score d == 25) by lra.
    assert (mood_score d == 25) by lra.
    tauto.
  - intros [H1 [H2 [H3 [H4 [H5 [H6 H7]]]]]].
    assert (E1 : steps_score d == 25) by tauto.
    assert (E2 : water_score d == 25) by tauto.
    assert (E3 : sleep_score d == 25) by tauto.
    assert (E4 : meals_score d == 25) by tauto.
    assert (E5 : mood_score d == 25) by tauto.
    lra.
Qed.

(** The sum of line 775 returns the balance 125, its maximum, exactly on
    the days with at least 10000 steps, at least 2000 ml of water, MORE
    than 8 hours of sleep, all three meals and an excellent mood; with
    exactly 8 hours it returns nothing. *)
Theorem balance_ceiling (d : data) :
  (exists b, Runtime.overall_balance d = Runtime.Returned b
             /\ Runtime.value b == 125)
  <-> (10000 <= steps d)%Z /\ (2000 <= water d)%Z /\ 8 < sleep d
      /\ breakfast d = true /\ lunch d = true /\ dinner d = true
      /\ mood d = "excellent".
Proof.
  split.
  - intros [b [Hb Hv]].
    rewrite (overall_balance_value _ _ Hb) in Hv.
    apply overall_balance_full in Hv.
    destruct Hv as [H1 [H2 [H3 [H4 [H5 [H6 H7]]]]]].
    repeat split; try assumption.
    destruct (Qlt_le_dec 8 (sleep d)) as [Hgt|Hle]; [exact Hgt|].
    exfalso.
    assert (Hr : forall b', Runtime.overall_balance d <> Runtime.Returned b').
    { apply overall_balance_raises. split; [split; lra|].
      right; right. unfold meals_count. rewrite H4, H5, H6. cbn. lia. }
    apply (Hr b Hb).
  - intros [H1 [H2 [H3 [H4 [H5 [H6 H7]]]]]].
    destruct (overall_balance_returns d (or_intror H3)) as [b Hb].
    exists b. split; [exact Hb|].
    rewrite (overall_balance_value _ _ Hb). apply overall_balance_full.
    repeat split; try assumption. lra.
Qed.

(** ** The reward, repeated *)

Lemma Qmin_step (x : Q) : Qmin (Qmin x 100 + 3) 100 == Qmin (x + 3) 100.
Proof.
  destruct (Q.min_spec x 100) as [[Hlt E]|[Hle E]]; rewrite E;
    [reflexivity|].
  rewrite (Q.min_r (100 + 3) 100) by discriminate.
  rewrite (Q.min_r (x + 3) 100) by lra. reflexivity.
Qed.

Lemma reward_step_iter (n : nat) (u : user_row) :
  u_id (Nat.iter n reward_step u) = u_id u
  /\ sync_coins (Nat.iter n reward_step u)
     = (sync_coins u + 2 * Z.of_nat n)%Z
  /\ ((0 < n)%nat ->
      energy_level (Nat.iter n reward_step u)
      == Qmin (energy_level u + 3 * inject_Z (Z.of_nat n)) 100).
Proof.
  induction n as [|n [IHi [IHc IHe]]];
    [split; [reflexivity | split; [cbn; lia | intro H; lia]]|].
  change (Nat.iter (S n) reward_step u)
    with (reward_step (Nat.iter n reward_step u)).
  remember (Nat.iter n reward_step u) as v eqn:Hv.
  unfold reward_step.
  cbn [add_energy add_coins sync_coins energy_level u_id].
  split; [exact IHi|]. split; [rewrite IHc; lia|]. intros _.
  rewrite Nat2Z.inj_succ, <- Z.add_1_r, inject_Z_plus.
  change (inject_Z 1) with 1.
  destruct n as [|n].
  - subst v. cbn [Nat.iter]. change (inject_Z (Z.of_nat 0)) with 0.
    assert (E : energy_level u + 3 == energy_level u + 3 * (0 + 1)) by ring.
    rewrite E. reflexivity.
  - rewrite (IHe (Nat.lt_0_succ n)), Qmin_step.
    assert (E : energy_level u + 3 * inject_Z (Z.of_nat (S n)) + 3
                == energy_level u + 3 * (inject_Z (Z.of_nat (S n)) + 1))
      by ring.
    rewrite E. reflexivity.
Qed.

Lemma award_times_returned (n : nat) (user_id habit_id : Z) (db : database) :
  (forall u, In u (users db) -> u_id u = user_id ->
             (sync_coins u + 2 * Z.of_nat n <= 2147483647)%Z) ->
  exists db',
    Runtime.award_times n user_id habit_id db = Runtime.Returned db'
    /\ users db'
       = map (fun u => if (u_id u =? user_id)%Z
                       then Nat.iter n reward_step u else u) (users db).
Proof.
  induction n as [|n IH]; intro Hfit.
  - exists db. split; [reflexivity|].
    rewrite <- (map_id (users db)) at 1. apply map_ext. intro u.
    destruct (u_id u =? user_id)%Z; reflexivity.
  - destruct IH as [dbn [Hn Hus]].
    { intros u Hin Hid. specialize (Hfit u Hin Hid). lia. }
    cbn [Runtime.award_times]. rewrite Hn. cbn [Runtime.bind].
    unfold Runtime.award_for_habit_completion.
    assert (Hc : Runtime.coins_fit user_id (users dbn) = true).
    { apply coins_fit_spec. intros u Hin Hid. rewrite Hus in Hin.
      apply in_map_iff in Hin. destruct Hin as [u0 [Hu Hin]].
      destruct (u_id u0 =? user_id)%Z eqn:E.
      - subst u. destruct (reward_step_iter n u0) as [Hi [Hc _]].
        rewrite Hc. rewrite Hi in Hid. specialize (Hfit u0 Hin Hid). lia.
      - subst u. apply Z.eqb_neq in E. contradiction. }
    rewrite Hc. eexists. split; [reflexivity|]. cbn [users]. rewrite Hus.
    unfold update_user. rewrite !map_map. apply map_ext. intro u.
    destruct (u_id u =? user_id)%Z eqn:E.
    + destruct (reward_step_iter n u) as [Hi _].
      rewrite Hi, E. cbn [add_coins u_id]. rewrite Hi, E. reflexivity.
    + rewrite !E. reflexivity.
Qed.

(** When the coin column can hold the balance plus [2 n], the reward
    applied [n] times succeeds, adds exactly [2 n] coins and, for [n > 0],
    sets the energy level to the smaller of energy plus [3 n] and 100;
    every other user is left as they were. *)
Theorem award_times_effect (n : nat) (user_id habit_id : Z) (db : database) :
  (forall u, In u (users db) -> u_id u = user_id ->
             (sync_coins u + 2 * Z.of_nat n <= 2147483647)%Z) ->
  exists db',
    Runtime.award_times n user_id habit_id db = Runtime.Returned db'
    /\ Forall2 (fun u u' =>
                  if (u_id u =? user_id)%Z
                  then sync_coins u' = (sync_coins u + 2 * Z.of_nat n)%Z
                       /\ ((0 < n)%nat ->
                           energy_level u'
                           == Qmin (energy_level u
                                    + 3 * inject_Z (Z.of_nat n)) 100)
                  else u' = u)
         (users db) (users db').
Proof.
  intro Hfit.
  destruct (award_times_returned n user_id habit_id db Hfit) as [db' [H Hus]].
  exists db'. split; [exact H|]. rewrite Hus.
  apply Forall2_map_self. intro u.
  destruct (u_id u =? user_id)%Z; [|reflexivity].
  destruct (reward_step_iter n u) as [_ Hce]. exact Hce.
Qed.

Lemma award_times_effect_witness :
  exists db',
    Runtime.award_times 3 1 1 nearly_full = Runtime.Returned db'.
Proof.
  destruct (award_times_effect 3 1 1 nearly_full) as [db' [H _]].
  - intros u [<-|[]] _. cbn. lia.
  - exists db'. exact H.
Defined.

(** ** When the helper raises *)

Lemma add_raised (x y : Runtime.number) (e : Runtime.exception) :
  Runtime.add x y = Runtime.Raised e -> e = Runtime.TypeError.
Proof.
  destruct x, y; cbn [Runtime.add]; intro H; try discriminate H;
    injection H as <-; reflexivity.
Qed.

Lemma overall_balance_raised (d : data) (e : Runtime.exception) :
  Runtime.overall_balance d = Runtime.Raised e -> e = Runtime.TypeError.
Proof.
  unfold Runtime.overall_balance, Runtime.bind. intro H.
  destruct (Runtime.add (Runtime.steps_score d) (Runtime.water_score d))
    as [s1|e1] eqn:E1;
    [|injection H as <-; exact (add_raised _ _ _ E1)].
  destruct (Runtime.add s1 (Runtime.sleep_score d)) as [s2|e2] eqn:E2;
    [|injection H as <-; exact (add_raised _ _ _ E2)].
  destruct (Runtime.add s2 (Runtime.meals_score d)) as [s3|e3] eqn:E3;
    [|injection H as <-; exact (add_raised _ _ _ E3)].
  exact (add_raised _ _ _ H).
Qed.

(** On a stored day, [update_energy_level] raises exactly when the day
    has a sleep of more than 0 and at most 8 hours together with a step
    count in 1..10000, a water volume in 1..2000 or a meal: then the sum of
    line 775 adds a [float] and a [Decimal].  The exception is a
    [TypeError]; in every other case the helper returns. *)
Theorem update_energy_level_raises (float_to_numeric : Q -> Q)
    (user_id date_str : Z) (db : database) (d : data) :
  fetch_data user_id date_str db = Some d ->
  let mixed :=
    (0 < sleep d /\ sleep d <= 8)
    /\ ((0 < steps d <= 10000)%Z \/ (0 < water d <= 2000)%Z
        \/ (0 < meals_count d)%Z) in
  (Runtime.update_energy_level float_to_numeric user_id date_str db
   = Runtime.Raised Runtime.TypeError <-> mixed)
  /\ ((exists db',
         Runtime.update_energy_level float_to_numeric user_id date_str db
         = Runtime.Returned db') <-> ~ mixed).
Proof.
  intros Hd mixed. subst mixed.
  pose proof (overall_balance_raises d) as Hr.
  unfold Runtime.update_energy_level, Runtime.compute_scores. rewrite Hd.
  destruct (Runtime.overall_balance d) as [b|e] eqn:E; cbn [Runtime.bind].
  - assert (Hn : ~ (forall b', Runtime.Returned b <> Runtime.Returned b'))
      by (intro H; exact (H b eq_refl)).
    split; split.
    + intro H. discriminate H.
    + intro H. exfalso. apply Hn, Hr, H.
    + intros _ H. apply Hn, Hr, H.
    + intros _. eexists. reflexivity.
  - rewrite (overall_balance_raised d e E).
    assert (Hm : forall b', Runtime.Raised e <> Runtime.Returned (A:=Runtime.number) b')
      by (intros b' H; discriminate H).
    split; split.
    + intros _. apply Hr, Hm.
    + intros _. reflexivity.
    + intros [db' H]. discriminate H.
    + intro H. exfalso. apply H, Hr, Hm.
Qed.

Lemma update_energy_level_raises_witness :
  Runtime.update_energy_level nearest_hundredth 1 100 scenario_store
  = Runtime.Raised Runtime.TypeError
  <-> (0 < sleep (select_data scenario_row)
       /\ sleep (select_data scenario_row) <= 8)
      /\ ((0 < steps (select_data scenario_row) <= 10000)%Z
          \/ (0 < water (select_data scenario_row) <= 2000)%Z
          \/ (0 < meals_count (select_data scenario_row))%Z).
Proof.
  apply (update_energy_level_raises nearest_hundredth 1 100 scenario_store
           (select_data scenario_row)).
  reflexivity.
Defined.

(** ** Writing a day and reading it back *)

Lemma set_scores_is_day (f : Q -> Q) (user_id date_str : Z)
    (s : Runtime.scores) (r : daily_row) :
  is_day user_id date_str (Runtime.set_scores f s r) = is_day user_id date_str r.
Proof. reflexivity. Qed.

Lemma filter_runtime_store_scores (f : Q -> Q) (user_id date_str : Z)
    (s : Runtime.scores) (rows : list daily_row) :
  filter (is_day user_id date_str)
    (Runtime.store_scores f user_id date_str s rows)
  = map (Runtime.set_scores f s) (filter (is_day user_id date_str) rows).
Proof.
  unfold Runtime.store_scores.
  induction rows as [|r rows IH]; [reflexivity|].
  cbn [map filter].
  destruct (is_day user_id date_str r) eqn:E.
  - rewrite set_scores_is_day, E. cbn [map]. rewrite IH. reflexivity.
  - rewrite E. exact IH.
Qed.

(** [POST /daily] followed by [GET /daily], for a registered user.  On a
    day that has no row yet, when the row can be inserted and its scores
    are computed, the write is answered with success and the read returns
    the inserted row carrying the scores of its own facts as the columns
    hold them, and changes nothing.  On a day that has a row, a request
    with a field to update is answered 500 and the read returns the old row.
    A write that is not answered with success leaves the store as it
    was. *)
Theorem daily_write_then_read (float_to_numeric : Q -> Q)
    (req : Runtime.DailyDataCreate) (date_today read_today : Z)
    (db : database) :
  let user_id := Runtime.rq_user_id req in
  let today := COALESCE (Runtime.rq_date req) date_today in
  let answer := Runtime.update_daily_data float_to_numeric req date_today db in
  existsb (fun u => (u_id u =? user_id)%Z) (users db) = true ->
  (forall w s,
     filter (is_day user_id today) (daily_data db) = [] ->
     Runtime.insert_row float_to_numeric req today = Runtime.Returned w ->
     Runtime.compute_scores (select_data w) = Runtime.Returned s ->
     fst answer = Success
     /\ get_daily_data user_id (Some today) read_today (snd answer)
        = (DailyRow (Runtime.set_scores float_to_numeric s w), snd answer))
  /\ (forall r rest,
        filter (is_day user_id today) (daily_data db) = r :: rest ->
        Runtime.has_update_fields req = true ->
        answer = (HTTPException 500, db)
        /\ get_daily_data user_id (Some today) read_today (snd answer)
           = (DailyRow r, db))
  /\ (fst answer <> Success -> snd answer = db).
Proof.
  intros user_id today answer Hu. split; [|split].
  - intros w s He Hw Hs. subst answer.
    destruct (insert_row_columns _ req today w Hw) as [Hid [Hdate _]].
    rewrite (update_daily_data_new_day _ req date_today db w s Hu He Hw Hs).
    cbn [fst snd]. split; [reflexivity|].
    unfold get_daily_data. cbn [COALESCE daily_data]. fold today user_id.
    rewrite filter_runtime_store_scores.
    rewrite (filter_inserted _ _ _ _ He Hid Hdate). reflexivity.
  - intros r rest He Hf. subst answer.
    unfold Runtime.update_daily_data. fold user_id. rewrite Hu. fold today.
    unfold Runtime.write_day. fold user_id. rewrite He. cbn [fetchone].
    rewrite Hf. cbn [Runtime.bind snd]. split; [reflexivity|].
    unfold get_daily_data. cbn [COALESCE]. rewrite He. reflexivity.
  - subst answer. unfold Runtime.update_daily_data. fold user_id.
    rewrite Hu. fold today.
    destruct (Runtime.bind _ _) as [db'|e]; cbn [fst snd]; intro H;
      [contradiction H; reflexivity | reflexivity].
Qed.

Lemma daily_write_then_read_witness :
  exists w s,
    Runtime.insert_row nearest_hundredth long_sleep_request 93
    = Runtime.Returned w
    /\ Runtime.compute_scores (select_data w) = Runtime.Returned s
    /\ fst (Runtime.update_daily_data nearest_hundredth long_sleep_request 93
              one_user) = Success
    /\ get_daily_data 1 (Some 93%Z) 94 store_after_93
       = (DailyRow (Runtime.set_scores nearest_hundredth s w), store_after_93).
Proof.
  destruct (daily_write_then_read nearest_hundredth long_sleep_request 93 94
              one_user eq_refl) as [H _].
  eexists. eexists.
  split; [vm_compute; reflexivity|]. split; [vm_compute; reflexivity|].
  apply H; [reflexivity | vm_compute; reflexivity | vm_compute; reflexivity].
Defined.

(** ** Completing a habit again, and a completion that fails *)

Lemma update_existing_completion_app (habit_id today : Z)
    (rows more : list completion_row) :
  filter (is_completion habit_id today) rows = [] ->
  update_existing_completion habit_id today (rows ++ more)
  = (rows ++ update_existing_completion habit_id today more)%list.
Proof.
  induction rows as [|c rows IH]; intro H; [reflexivity|].
  cbn [filter] in H. cbn [app update_existing_completion].
  destruct (is_completion habit_id today c); [discriminate H|].
  rewrite IH by exact H. reflexivity.
Qed.

Lemma update_existing_completion_idem (habit_id today : Z)
    (rows : list completion_row) :
  update_existing_completion habit_id today
    (update_existing_completion habit_id today rows)
  = update_existing_completion habit_id today rows.
Proof.
  induction rows as [|c rows IH]; [reflexivity|].
  cbn [update_existing_completion].
  destruct (is_completion habit_id today c) eqn:E;
    cbn [update_existing_completion].
  - change (is_completion habit_id today (mark_completed c))
      with (is_completion habit_id today c).
    rewrite E. reflexivity.
  - rewrite E, IH. reflexivity.
Qed.

Lemma filter_update_existing_completion (habit_id today : Z)
    (rows : list completion_row) :
  filter (is_completion habit_id today)
    (update_existing_completion habit_id today rows)
  = match filter (is_completion habit_id today) rows with
    | [] => []
    | c :: rest => mark_completed c :: rest
    end.
Proof.
  induction rows as [|c rows IH]; [reflexivity|].
  cbn [update_existing_completion filter].
  destruct (is_completion habit_id today c) eqn:E; cbn [filter].
  - change (is_completion habit_id today (mark_completed c))
      with (is_completion habit_id today c).
    rewrite E. reflexivity.
  - rewrite E. exact IH.
Qed.

(** Recording the completion of the same day again leaves the modelled
    columns of the table as they are. *)
Lemma record_completion_again (habit_id today : Z) (db db0 : database) :
  habit_completions db0
  = habit_completions (record_completion habit_id today db) ->
  habit_completions (record_completion habit_id today db0)
  = habit_completions db0.
Proof.
  intro H. unfold record_completion at 1. cbn [habit_completions].
  rewrite H. unfold record_completion. cbn [habit_completions].
  destruct (filter (is_completion habit_id today) (habit_completions db))
    as [|c rest] eqn:E; cbn [fetchone].
  - rewrite filter_app, E. cbn [filter app].
    unfold is_completion at 1. cbn [c_habit_id c_date].
    rewrite !Z.eqb_refl. cbn [andb fetchone].
    rewrite (update_existing_completion_app _ _ _ _ E).
    cbn [update_existing_completion].
    unfold is_completion. cbn [c_habit_id c_date].
    rewrite !Z.eqb_refl. reflexivity.
  - rewrite filter_update_existing_completion, E. cbn [fetchone].
    apply update_existing_completion_idem.
Qed.

Lemma existsb_map_id (habit_id : Z) (f : habit_row -> habit_row)
    (rows : list habit_row) :
  (forall h, h_id (f h) = h_id h) ->
  existsb (fun h => (h_id h =? habit_id)%Z) (map f rows)
  = existsb (fun h => (h_id h =? habit_id)%Z) rows.
Proof.
  intro Hf. induction rows as [|h rows IH]; [reflexivity|].
  cbn [map existsb]. rewrite Hf, IH. reflexivity.
Qed.

(** Recomputing the streak over the same completions changes nothing. *)
Lemma set_streak_again (habit_id today : Z) (db0 db : database) :
  habit_completions db0 = habit_completions db ->
  user_habits db0 = user_habits (update_habit_streak habit_id today db) ->
  user_habits (update_habit_streak habit_id today db0) = user_habits db0.
Proof.
  intros Hc Hh. unfold update_habit_streak at 1. cbn [user_habits].
  rewrite Hh. unfold update_habit_streak, fetch_completions, completed_dates.
  cbn [user_habits]. rewrite Hc, map_map. apply map_ext. intro h.
  destruct (h_id h =? habit_id)%Z eqn:E.
  - cbn [set_streak h_id]. rewrite E. unfold set_streak.
    cbn [h_id current_streak longest_streak]. f_equal. lia.
  - rewrite E. reflexivity.
Qed.

(** What a completion that gets through does. *)
Lemma complete_habit_success (owners : list habit_owner)
    (completion : Runtime.HabitCompletion) (today : Z) (db : database) :
  let user_id := Runtime.hc_user_id completion in
  let habit_id := Runtime.hc_habit_id completion in
  habit_found owners user_id habit_id db = true ->
  Runtime.value_fits completion = true ->
  (forall u, In u (users db) -> u_id u = user_id ->
             (sync_coins u <= 2147483645)%Z) ->
  Runtime.complete_habit owners completion today db
  = (Success,
     award_for_habit_completion user_id habit_id
       (update_habit_streak habit_id today
          (record_completion habit_id today db))).
Proof.
  intros user_id habit_id Hf Hv Hc. unfold Runtime.complete_habit.
  fold user_id habit_id. rewrite Hf, Hv. cbn [Runtime.bind].
  unfold Runtime.award_for_habit_completion.
  cbn [users update_habit_streak record_completion].
  rewrite (proj2 (coins_fit_spec user_id (users db)) Hc). reflexivity.
Qed.

(** Completing the same owned habit again on the same day, while the
    coin column can hold four coins more: both requests are answered with
    success, the second pays the reward again, and it leaves the streak
    counters and the habit, date and completed flag of every completion
    row as the first left them, and the days too. *)
Theorem repeated_completion_only_rewards (owners : list habit_owner)
    (completion : Runtime.HabitCompletion) (today : Z) (db : database) :
  let user_id := Runtime.hc_user_id completion in
  let habit_id := Runtime.hc_habit_id completion in
  habit_found owners user_id habit_id db = true ->
  Runtime.value_fits completion = true ->
  (forall u, In u (users db) -> u_id u = user_id ->
             (sync_coins u <= 2147483643)%Z) ->
  let first := Runtime.complete_habit owners completion today db in
  let second := Runtime.complete_habit owners completion today (snd first) in
  fst first = Success /\ fst second = Success
  /\ users (snd second)
     = update_user user_id add_energy
         (update_user user_id add_coins (users (snd first)))
  /\ habit_completions (snd second) = habit_completions (snd first)
  /\ user_habits (snd second) = user_habits (snd first)
  /\ daily_data (snd second) = daily_data (snd first).
Proof.
  intros user_id habit_id Hf Hv Hc first second. subst first second.
  assert (Hc1 : forall u, In u (users db) -> u_id u = user_id ->
                          (sync_coins u <= 2147483645)%Z)
    by (intros u Hin Hid; specialize (Hc u Hin Hid); lia).
  rewrite (complete_habit_success owners completion today db Hf Hv Hc1).
  fold user_id habit_id. cbn [fst snd].
  set (A := record_completion habit_id today db).
  set (db1 := award_for_habit_completion user_id habit_id
                (update_habit_streak habit_id today A)).
  assert (Hfound : habit_found owners user_id habit_id db1 = true).
  { unfold habit_found in *. subst db1. unfold update_habit_streak.
    cbn [award_for_habit_completion user_habits].
    rewrite existsb_map_id; [exact Hf|].
    intro h. destruct (h_id h =? habit_id)%Z; reflexivity. }
  assert (Hcoins : forall u, In u (users db1) -> u_id u = user_id ->
                             (sync_coins u <= 2147483645)%Z).
  { intros u Hin Hid. subst db1.
    cbn [award_for_habit_completion users update_habit_streak] in Hin.
    subst A. cbn [record_completion users] in Hin.
    unfold update_user in Hin. rewrite map_map in Hin.
    apply in_map_iff in Hin. destruct Hin as [u0 [Hu Hin]].
    destruct (u_id u0 =? user_id)%Z eqn:E.
    - cbn [add_coins u_id] in Hu. rewrite E in Hu. subst u.
      cbn [add_energy add_coins sync_coins u_id] in *.
      specialize (Hc u0 Hin Hid). lia.
    - rewrite E in Hu. subst u. apply Z.eqb_neq in E. contradiction. }
  rewrite (complete_habit_success owners completion today db1 Hfound Hv Hcoins).
  fold user_id habit_id. cbn [fst snd].
  assert (HA : habit_completions (record_completion habit_id today db1)
               = habit_completions db1)
    by (apply (record_completion_again habit_id today db db1); reflexivity).
  split; [reflexivity|]. split; [reflexivity|]. split; [reflexivity|].
  split; [exact HA|]. split; [|reflexivity].
  cbn [award_for_habit_completion user_habits].
  apply (set_streak_again habit_id today
           (record_completion habit_id today db1) A);
    [rewrite HA; reflexivity | reflexivity].
Qed.

Lemma repeated_completion_only_rewards_witness :
  fst (Runtime.complete_habit sample_owners plain_completion 93 habit_user_db)
  = Success
  /\ fst (Runtime.complete_habit sample_owners plain_completion 93
            (snd (Runtime.complete_habit sample_owners plain_completion 93
                    habit_user_db)))
     = Success.
Proof.
  destruct (repeated_completion_only_rewards sample_owners plain_completion 93
              habit_user_db) as [H1 [H2 _]];
    [reflexivity | reflexivity | intros u [<-|[]] _; cbn; lia |].
  split; [exact H1 | exact H2].
Defined.

(** A completion of an owned habit that cannot be stored is rolled back:
    when the value of the request does not fit its column, or when the
    coin balance of the user is above 2147483645, the request is answered
    500 and the store is as it was, with no completion row, no streak
    update and no reward. *)
Theorem complete_habit_rolled_back (owners : list habit_owner)
    (completion : Runtime.HabitCompletion) (today : Z) (db : database) :
  let user_id := Runtime.hc_user_id completion in
  let habit_id := Runtime.hc_habit_id completion in
  habit_found owners user_id habit_id db = true ->
  Runtime.value_fits completion = false
  \/ (exists u, In u (users db) /\ u_id u = user_id
                /\ (2147483645 < sync_coins u)%Z) ->
  Runtime.complete_habit owners completion today db
  = (HTTPException 500, db).
Proof.
  intros user_id habit_id Hf H. unfold Runtime.complete_habit.
  fold user_id habit_id. rewrite Hf.
  destruct (Runtime.value_fits completion) eqn:Hv; [|reflexivity].
  destruct H as [H|[u [Hin [Hid Hu]]]]; [discriminate H|].
  cbn [Runtime.bind]. unfold Runtime.award_for_habit_completion.
  cbn [users update_habit_streak record_completion].
  destruct (Runtime.coins_fit user_id (users db)) eqn:E; [|reflexivity].
  exfalso. pose proof (proj1 (coins_fit_spec user_id (users db)) E u Hin Hid).
  lia.
Qed.

Lemma complete_habit_rolled_back_witness :
  Runtime.complete_habit sample_owners plain_completion 93 rich_habit_db
  = (HTTPException 500, rich_habit_db).
Proof.
  apply (complete_habit_rolled_back sample_owners plain_completion 93
           rich_habit_db); [reflexivity|].
  right. eexists. split; [left; reflexivity|]. split; [reflexivity|].
  cbn. lia.
Defined.
